(** * JustTCG import scripts: a shallow embedding and its properties

    The development follows the two scripts under [scripts/imports]:

    - [justtcg_api_test.py]   (the detail fetcher: cards of a set, one
      output object per variant), embedded in [Module ApiTest];
    - [justtcg_list_games.py] (the catalog fetcher: the sets of a game),
      embedded in [Module ListGames].

    Both are straight-line module-level code: check the API key, issue one
    GET, check the status, decode the body, reshape, write one JSON file.
    Python values are embedded as the inductive [pyval]; exceptions as
    [exn]; the effects of a run (the request sent, the file written) as a
    trace of [event]s next to the outcome of the run. *)

From Stdlib Require Import List String Ascii ZArith Bool Lia.
From Stdlib Require Import Permutation Sorted.
Import ListNotations.
Local Open Scope string_scope.
Set Warnings "-register-all".

(** ** Python values and exceptions *)

Module Py.

(** The values [json.loads] can produce.  A [str] is held as the bytes of
    its UTF-8 form, a surrogate code point (which a JSON escape such as
    [\ud83d] puts into a [str]) as the three bytes that form gives it; a
    [float] is kept as its binary64 bit pattern, of which the scripts only
    ever observe whether it is zero; a [dict] is an association list in
    insertion order, looked up from the front (a decoded JSON object has
    each key once). *)
Inductive pyval : Type :=
| PyNone
| PyBool (b : bool)
| PyInt (n : Z)
| PyFloat (bits : Z)
| PyStr (s : string)
| PyList (items : list pyval)
| PyDict (entries : list (string * pyval)).

(** The exceptions a run can end with.  A [RuntimeError] carries the literal
    text of its message and the values an f-string interpolates into it,
    kept as values.  [HTTPError] is what [raise_for_status] raises,
    [JSONDecodeError] what [Response.json] raises, [RequestException] stands
    for a transport failure of [requests.get], [UnicodeEncodeError] is what
    writing a surrogate to a UTF-8 file raises. *)
Inductive exn : Type :=
| RuntimeError (text : string) (args : list pyval)
| HTTPError (status_code : Z)
| JSONDecodeError
| RequestException
| AttributeError
| TypeError
| UnicodeEncodeError.

Inductive result (A : Type) : Type :=
| Ok (a : A)
| Raise (e : exn).
Arguments Ok {A} a.
Arguments Raise {A} e.

Definition bind {A B : Type} (m : result A) (f : A -> result B) : result B :=
  match m with
  | Ok a => f a
  | Raise e => Raise e
  end.

Notation "x <- m ;; k" := (bind m (fun x => k))
  (at level 61, m at next level, right associativity).

(** [d[k]] if present: the first binding of [k]. *)
Fixpoint lookup (k : string) (d : list (string * pyval)) : option pyval :=
  match d with
  | [] => None
  | (k', v) :: d' => if String.eqb k k' then Some v else lookup k d'
  end.

(** [d[k] = v]: an existing key keeps its position, a new one goes last. *)
Fixpoint dict_set (k : string) (v : pyval) (d : list (string * pyval))
  : list (string * pyval) :=
  match d with
  | [] => [(k, v)]
  | (k', v') :: d' =>
      if String.eqb k k' then (k, v) :: d' else (k', v') :: dict_set k v d'
  end.

(** [obj.get(key, default)]: only a [dict] has the method. *)
Definition get_default (obj : pyval) (key : string) (default : pyval)
  : result pyval :=
  match obj with
  | PyDict d =>
      match lookup key d with
      | Some v => Ok v
      | None => Ok default
      end
  | _ => Raise AttributeError
  end.

(** [obj.get(key)], whose default is [None]. *)
Definition get (obj : pyval) (key : string) : result pyval :=
  get_default obj key PyNone.

(** Truth value testing, as [not x] and [x or y] use it.  A float is false
    when it is [0.0] or [-0.0]: every bit but the sign is clear. *)
Definition truthy (v : pyval) : bool :=
  match v with
  | PyNone => false
  | PyBool b => b
  | PyInt n => negb (n =? 0)%Z
  | PyFloat bits => negb (Z.land bits (2 ^ 63 - 1) =? 0)%Z
  | PyStr s => negb (String.eqb s "")
  | PyList l => match l with [] => false | _ => true end
  | PyDict d => match d with [] => false | _ => true end
  end.

(** [x or y] *)
Definition or_ (x y : pyval) : pyval := if truthy x then x else y.

(** [isinstance(v, list)] *)
Definition isinstance_list (v : pyval) : bool :=
  match v with
  | PyList _ => true
  | _ => false
  end.

(** A byte [10xxxxxx], which goes on with the character before it. *)
Definition is_continuation (c : ascii) : bool :=
  ((128 <=? N_of_ascii c) && (N_of_ascii c <? 192))%N.

(** The characters of a [str], each as a [str] of length one: a character
    is a byte and the continuation bytes that follow it. *)
Fixpoint chars (s : string) : list pyval :=
  match s with
  | EmptyString => []
  | String c s' =>
      let rest := chars s' in
      match s' with
      | String c' _ =>
          if is_continuation c' then
            match rest with
            | PyStr t :: rest' => PyStr (String c t) :: rest'
            | _ => PyStr (String c EmptyString) :: rest
            end
          else PyStr (String c EmptyString) :: rest
      | EmptyString => PyStr (String c EmptyString) :: rest
      end
  end.

(** Whether a [str] holds a surrogate code point, U+D800 to U+DFFF: in the
    bytes, [ED] followed by a byte from [A0] to [BF]. *)
Fixpoint has_surrogate (s : string) : bool :=
  match s with
  | EmptyString => false
  | String c s' =>
      match s' with
      | String c' _ =>
          ((N_of_ascii c =? 237) && (160 <=? N_of_ascii c') &&
           (N_of_ascii c' <=? 191))%N
      | EmptyString => false
      end || has_surrogate s'
  end.

(** Whether the text [json.dump(v, f, ensure_ascii=False)] makes of a value
    can be encoded as UTF-8: no string in it, key or value, holds a
    surrogate. *)
Fixpoint encodable (v : pyval) : bool :=
  match v with
  | PyStr s => negb (has_surrogate s)
  | PyList l => forallb encodable l
  | PyDict d =>
      forallb (fun kv => negb (has_surrogate (fst kv)) && encodable (snd kv)) d
  | _ => true
  end.

(** What [for x in v] ranges over: the items of a list, the characters of a
    string, the keys of a dict; the other values are not iterable. *)
Definition iter (v : pyval) : result (list pyval) :=
  match v with
  | PyList l => Ok l
  | PyStr s => Ok (chars s)
  | PyDict d => Ok (map (fun kv => PyStr (fst kv)) d)
  | _ => Raise TypeError
  end.

(** A dict display [{**init, k1: e1, ..., kn: en}]: the item expressions
    are evaluated left to right, the first exception wins, and each value
    is stored under its key. *)
Fixpoint dict_display (init : list (string * pyval))
    (items : list (string * result pyval)) : result (list (string * pyval)) :=
  match items with
  | [] => Ok init
  | (k, e) :: items' =>
      v <- e ;;
      dict_display (dict_set k v init) items'
  end.

(** [s.startswith(prefix)] and [sub in s] on strings. *)
Definition startswith (s prefix : string) : bool := String.prefix prefix s.

Fixpoint contains (sub s : string) : bool :=
  String.prefix sub s ||
  match s with
  | EmptyString => false
  | String _ s' => contains sub s'
  end.

(** [os.getenv(name, default)] in an environment [env]. *)
Definition getenv (env : string -> option string) (name default : string)
  : string :=
  match env name with
  | Some v => v
  | None => default
  end.

End Py.

(** ** The effects of a run *)

Module Run.
Import Py.

(** What [requests.get] is called with. *)
Record request : Type := {
  req_url : string;
  req_headers : list (string * string);
  req_params : option (list (string * pyval));
  req_timeout : Z }.

(** What the scripts read of a [Response]: the status code and the decoded
    body ([None] when the body is not JSON). *)
Record response : Type := {
  status_code : Z;
  json_body : option pyval }.

(** The remote end either answers or the transport fails (no connection,
    timeout). *)
Inductive net_outcome : Type :=
| Responds (r : response)
| Fails.

(** The observable effects: a GET sent; a file opened for writing and
    filled with [json.dump] of a value (the value stands for its text); and
    a file opened for writing, so created or emptied, in which [json.dump]
    of a value stopped at a string that cannot be encoded, so that the file
    is left with at most the beginning of the text.  Console output is not
    part of the trace: the console is taken to accept what is printed, and
    the file system to accept what is written. *)
Inductive event : Type :=
| EvGet (req : request)
| EvDump (path : string) (content : pyval)
| EvPartial (path : string) (content : pyval).

(** A run: the events in the order they happened and how the run ended. *)
Definition run (A : Type) : Type := (list event * result A)%type.

Definition ret {A : Type} (a : A) : run A := ([], Ok a).

Definition lift {A : Type} (r : result A) : run A := ([], r).

Definition raise {A : Type} (e : exn) : run A := ([], Raise e).

Definition then_ {A B : Type} (m : run A) (f : A -> run B) : run B :=
  match m with
  | (t, Ok a) => let (t', r) := f a in ((t ++ t')%list, r)
  | (t, Raise e) => (t, Raise e)
  end.

Notation "x <~ m ;; k" := (then_ m (fun x => k))
  (at level 61, m at next level, right associativity).

(** [requests.get(url, headers=..., params=..., timeout=...)] against a
    network [net]. *)
Definition requests_get (net : request -> net_outcome) (req : request)
  : run response :=
  ([EvGet req],
   match net req with
   | Responds r => Ok r
   | Fails => Raise RequestException
   end).

(** [Response.raise_for_status()]: [HTTPError] on a 4xx or 5xx status. *)
Definition raise_for_status (r : response) : result unit :=
  if ((400 <=? status_code r) && (status_code r <? 600))%Z
  then Raise (HTTPError (status_code r))
  else Ok tt.

(** [Response.json()] *)
Definition json (r : response) : result pyval :=
  match json_body r with
  | Some v => Ok v
  | None => Raise JSONDecodeError
  end.

(** [with open(path, "w", encoding="utf-8") as f:
    json.dump(v, f, indent=2, ensure_ascii=False)]: the text is written in
    pieces, and the piece with a surrogate in it raises. *)
Definition dump (path : string) (v : pyval) : run unit :=
  if encodable v then ([EvDump path v], Ok tt)
  else ([EvPartial path v], Raise UnicodeEncodeError).

(** The events that touch a file. *)
Definition is_dump (e : event) : bool :=
  match e with
  | EvGet _ => false
  | EvDump _ _ => true
  | EvPartial _ _ => true
  end.

End Run.

(** ** [scripts/imports/justtcg_api_test.py] *)

Module ApiTest.
Import Py Run.

(** [API_KEY = os.getenv("JUSTTCG_API_KEY", "tcg_...")] *)
Definition API_KEY (env : string -> option string) : string :=
  getenv env "JUSTTCG_API_KEY" "tcg_887123715b7241a4a46126c96d3fff80".

Definition BASE_URL : string := "https://api.justtcg.com/v1".
Definition GAME_ID : string := "pokemon".
Definition SET_ID : string := "sv-black-bolt-pokemon".
Definition CARD_NUMBER : string := "1".
Definition CONDITION : string := "NM".

Definition OUTPUT_FILE : string :=
  "pokemon_" ++ SET_ID ++ "_card_" ++ CARD_NUMBER ++ "_variants.json".

Definition headers (env : string -> option string) : list (string * string) :=
  [("x-api-key", API_KEY env); ("Accept", "application/json")].

Definition params : list (string * pyval) :=
  [("game", PyStr GAME_ID); ("set", PyStr SET_ID); ("limit", PyInt 20);
   ("condition", PyStr CONDITION); ("q", PyStr "Snivy")].

(** The request of line 38. *)
Definition cards_request (env : string -> option string) : request :=
  {| req_url := BASE_URL ++ "/cards";
     req_headers := headers env;
     req_params := Some params;
     req_timeout := 20 |}.

(** The dict [base] of lines 50-62. *)
Definition base (card : pyval) : result (list (string * pyval)) :=
  dict_display []
    [("card_id", get card "id");
     ("name", get card "name");
     ("game", get card "game");
     ("set_id", get card "set");
     ("set_name", get card "set_name");
     ("number", get card "number");
     ("rarity", get card "rarity");
     ("details", get card "details");
     ("tcgplayerId", get card "tcgplayerId");
     ("mtgjsonId", get card "mtgjsonId");
     ("scryfallId", get card "scryfallId")].

(** The dict appended at lines 65-78: [{**base, "variant_id": ..., ...}]. *)
Definition variant_row (base : list (string * pyval)) (v : pyval)
  : result pyval :=
  row <- dict_display base
    [("variant_id", get v "id");
     ("condition", get v "condition");
     ("printing", get v "printing");
     ("language", get v "language");
     ("tcgplayerSkuId", get v "tcgplayerSkuId");
     ("price", get v "price");
     ("lastUpdated", get v "lastUpdated");
     ("priceChange24hr", get v "priceChange24hr");
     ("priceChange7d", get v "priceChange7d");
     ("avgPrice", get v "avgPrice")] ;;
  Ok (PyDict row).

(** The inner loop, lines 64-78: [flat_variants] is the list built so far,
    each iteration appends one row to it. *)
Fixpoint for_v (base : list (string * pyval)) (vs : list pyval)
    (flat_variants : list pyval) : result (list pyval) :=
  match vs with
  | [] => Ok flat_variants
  | v :: vs' =>
      row <- variant_row base v ;;
      for_v base vs' (flat_variants ++ [row])%list
  end.

(** The outer loop, lines 49-78. *)
Fixpoint for_card (cards : list pyval) (flat_variants : list pyval)
  : result (list pyval) :=
  match cards with
  | [] => Ok flat_variants
  | card :: cards' =>
      b <- base card ;;
      variants <- get card "variants" ;;
      vs <- iter (or_ variants (PyList [])) ;;
      flat_variants' <- for_v b vs flat_variants ;;
      for_card cards' flat_variants'
  end.

(** The flattening step, lines 47-78, from [flat_variants = []]. *)
Definition flatten (cards : pyval) : result (list pyval) :=
  cs <- iter cards ;;
  for_card cs [].

(** The whole script, in an environment [env] against a network [net]. *)
Definition main (env : string -> option string)
    (net : request -> net_outcome) : run unit :=
  if negb (truthy (PyStr (API_KEY env))) || startswith (API_KEY env) "YOUR_"
  then
    raise (RuntimeError
      "❗ Set JUSTTCG_API_KEY env var or update API_KEY in this script" [])
  else
    resp <~ requests_get net (cards_request env) ;;
    _ <~ lift (raise_for_status resp) ;;
    body <~ lift (json resp) ;;
    cards <~ lift (get_default body "data" (PyList [])) ;;
    if negb (isinstance_list cards)
    then raise (RuntimeError "Unexpected response shape: " [body])
    else
      flat_variants <~ lift (flatten cards) ;;
      dump OUTPUT_FILE (PyList flat_variants).

End ApiTest.

(** ** [scripts/imports/justtcg_list_games.py] *)

Module ListGames.
Import Py Run.

(** The literal of line 6. *)
Definition API_KEY : string := "tcg_887123715b7241a4a46126c96d3fff80".

Definition url : string := "https://api.justtcg.com/v1/sets?game=pokemon".

Definition headers (api_key : string) : list (string * string) :=
  [("x-api-key", api_key); ("Accept", "application/json")].

(** The request of line 18. *)
Definition sets_request (api_key : string) : request :=
  {| req_url := url;
     req_headers := headers api_key;
     req_params := None;
     req_timeout := 10 |}.

(** The dict of lines 27-32, for one item [s]. *)
Definition entry (s : pyval) : result pyval :=
  d <- dict_display []
    [("id", get s "id");
     ("name", get s "name");
     ("variants_count", get s "variants_count");
     ("cards_count", get s "cards_count")] ;;
  Ok (PyDict d).

(** The comprehension [[f(s) for s in xs]]. *)
Fixpoint comprehension (f : pyval -> result pyval) (xs : list pyval)
  : result (list pyval) :=
  match xs with
  | [] => Ok []
  | s :: xs' =>
      y <- f s ;;
      ys <- comprehension f xs' ;;
      Ok (y :: ys)
  end.

(** [simple_list], lines 26-34. *)
Definition simple_list (sets : pyval) : result (list pyval) :=
  xs <- iter sets ;;
  comprehension entry xs.

Definition output_file : string := "pokemon_sets.json".

(** The script from line 8 on, with the value of the module constant
    [API_KEY] as a parameter. *)
Definition script (api_key : string) (net : request -> net_outcome)
  : run unit :=
  if negb (truthy (PyStr api_key)) || contains "YOUR_API_KEY_HERE" api_key
  then
    raise (RuntimeError
      "❗ Set JUSTTCG_API_KEY env var or replace YOUR_API_KEY_HERE in script"
      [])
  else
    response <~ requests_get net (sets_request api_key) ;;
    _ <~ lift (raise_for_status response) ;;
    data <~ lift (json response) ;;
    sets <~ lift (get_default data "data" (PyList [])) ;;
    simple <~ lift (simple_list sets) ;;
    dump output_file (PyList simple).

(** The script as it is in the repository. *)
Definition main (net : request -> net_outcome) : run unit :=
  script API_KEY net.

End ListGames.

(** ** The vocabulary of the specification *)

Module Spec.
Import Py Run.

Definition is_dict (v : pyval) : bool :=
  match v with
  | PyDict _ => true
  | _ => false
  end.

(** The value a record holds for a field, [PyNone] marking an absent one. *)
Definition field (r : pyval) (k : string) : pyval :=
  match r with
  | PyDict d =>
      match lookup k d with
      | Some v => v
      | None => PyNone
      end
  | _ => PyNone
  end.

(** The variant sequence of a detail record; empty when the record has no
    [variants] list. *)
Definition variants_of (card : pyval) : list pyval :=
  match card with
  | PyDict d =>
      match lookup "variants" d with
      | Some (PyList vs) => vs
      | _ => []
      end
  | _ => []
  end.

(** A detail record: an object whose [variants], when present and not null,
    is a list of objects. *)
Definition detail_record (card : pyval) : bool :=
  match card with
  | PyDict d =>
      match lookup "variants" d with
      | None => true
      | Some PyNone => true
      | Some (PyList vs) => forallb is_dict vs
      | Some _ => false
      end
  | _ => false
  end.

(** The shared fields of a row, each with the parent field it comes from. *)
Definition shared_fields : list (string * string) :=
  [("card_id", "id"); ("name", "name"); ("game", "game"); ("set_id", "set");
   ("set_name", "set_name"); ("number", "number"); ("rarity", "rarity");
   ("details", "details"); ("tcgplayerId", "tcgplayerId");
   ("mtgjsonId", "mtgjsonId"); ("scryfallId", "scryfallId")].

(** The variant-specific fields of a row, each with the variant field it
    comes from. *)
Definition variant_fields : list (string * string) :=
  [("variant_id", "id"); ("condition", "condition");
   ("printing", "printing"); ("language", "language");
   ("tcgplayerSkuId", "tcgplayerSkuId"); ("price", "price");
   ("lastUpdated", "lastUpdated"); ("priceChange24hr", "priceChange24hr");
   ("priceChange7d", "priceChange7d"); ("avgPrice", "avgPrice")].

(** The FlatVariantRow of the specification: the parent's shared fields
    merged with the variant's own fields. *)
Definition flat_row (card v : pyval) : pyval :=
  PyDict (map (fun f => (fst f, field card (snd f))) shared_fields ++
          map (fun f => (fst f, field v (snd f))) variant_fields)%list.

(** One row per variant, grouped by parent record in input order, the
    variants of a record in their own order. *)
Definition flat_rows (cards : list pyval) : list pyval :=
  flat_map (fun card => map (flat_row card) (variants_of card)) cards.

(** The (parent, variant) pairs of a response, in the same order. *)
Definition parent_variant_pairs (cards : list pyval)
  : list (pyval * pyval) :=
  flat_map (fun card => map (pair card) (variants_of card)) cards.

(** The fields of a CatalogEntry. *)
Definition catalog_fields : list string :=
  ["id"; "name"; "variants_count"; "cards_count"].

(** The CatalogEntry of the specification for a raw item. *)
Definition catalog_entry (s : pyval) : pyval :=
  PyDict (map (fun k => (k, field s k)) catalog_fields).

(** The error taxonomy of the specification, read on the exceptions the
    scripts raise: both the credential check and the shape check raise a
    [RuntimeError], told apart by their message. *)
Definition ShapeError (e : exn) : Prop :=
  exists body, e = RuntimeError "Unexpected response shape: " [body].

Definition ConfigurationError (e : exn) : Prop :=
  exists text, e = RuntimeError text [] /\
    String.prefix "❗ Set JUSTTCG_API_KEY env var" text = true.

Definition HttpError (e : exn) : Prop :=
  exists code, e = HTTPError code.

(** The events of a trace that touch a file. *)
Definition files_written (t : list event) : list event := filter is_dump t.

(** A status [raise_for_status] lets through. *)
Definition success_status (r : response) : Prop :=
  (status_code r < 400 \/ 600 <= status_code r)%Z.

(** A status [raise_for_status] rejects: 4xx and 5xx. *)
Definition failure_status (r : response) : Prop :=
  (400 <= status_code r < 600)%Z.

(** The row the detail fetcher emits for variant [v] of record [card]: the
    row built at lines 65-78 from the [base] of lines 50-62. *)
Definition emitted (card v row : pyval) : Prop :=
  exists b, ApiTest.base card = Ok b /\ ApiTest.variant_row b v = Ok row.

(** A row holds the parent's value under each shared field. *)
Definition carries_shared (row card : pyval) : Prop :=
  forall f, In f shared_fields -> get row (fst f) = get card (snd f).

(** Two rows are equal on every field that is not variant-specific. *)
Definition agree_outside_variant (r1 r2 : pyval) : Prop :=
  forall k, ~ In k (map fst variant_fields) -> get r1 k = get r2 k.

(** The credential passes the check of [justtcg_api_test.py], line 9. *)
Definition credential_accepted (env : string -> option string) : Prop :=
  ApiTest.API_KEY env <> "" /\
  startswith (ApiTest.API_KEY env) "YOUR_" = false.

End Spec.

(** ** Sample inputs *)

Module Examples.
Import Py Run.

(** No [JUSTTCG_API_KEY] in the environment. *)
Definition env_unset : string -> option string := fun _ => None.

(** [JUSTTCG_API_KEY] set to [key]. *)
Definition env_key (key : string) : string -> option string :=
  fun name => if String.eqb name "JUSTTCG_API_KEY" then Some key else None.

(** A network that answers every request with [status] and JSON [body]. *)
Definition answers (status : Z) (body : pyval) : request -> net_outcome :=
  fun _ => Responds {| status_code := status; json_body := Some body |}.

(** A card with two variants and one with [variants] null. *)
Definition snivy : pyval :=
  PyDict [("id", PyStr "c1"); ("name", PyStr "Snivy");
          ("set", PyStr "sv-black-bolt-pokemon"); ("number", PyStr "1");
          ("variants",
           PyList [PyDict [("id", PyStr "v1"); ("condition", PyStr "NM");
                           ("printing", PyStr "Normal"); ("price", PyInt 3)];
                   PyDict [("id", PyStr "v2"); ("condition", PyStr "NM");
                           ("printing", PyStr "Holofoil")]])].

Definition servine : pyval :=
  PyDict [("id", PyStr "c2"); ("name", PyStr "Servine");
          ("variants", PyNone)].

(** The three bytes of U+D83D, the surrogate the JSON escape [\ud83d]
    stands for. *)
Definition lone_surrogate : string :=
  String (ascii_of_nat 237)
    (String (ascii_of_nat 160) (String (ascii_of_nat 189) EmptyString)).


(** A card like [snivy] whose name is that surrogate. *)
Definition snivy_surrogate : pyval :=
  PyDict [("id", PyStr "c1"); ("name", PyStr lone_surrogate);
          ("variants", PyList [PyDict [("id", PyStr "v1")]])].

(** The catalog item of the scenario in the specification. *)
Definition set_one : pyval :=
  PyDict [("id", PyStr "s1"); ("name", PyStr "Set One");
          ("variants_count", PyInt 3); ("cards_count", PyInt 10)].

End Examples.

(** ** [generate_tree.py] *)

Module GenerateTree.
Import Py.

(** What a path names: a file, or a directory with what [os.listdir] gives
    for it, each name with what it names in turn.  [readable] is false
    when [os.listdir] raises [PermissionError].  A directory holds each
    name once; links that close a cycle are outside the model. *)
Inductive node : Type :=
| File
| Dir (readable : bool) (entries : list (string * node)).

(** [os.path.isdir] of the path of an entry. *)
Definition isdir (n : node) : bool :=
  match n with
  | Dir _ _ => true
  | File => false
  end.

Definition IGNORE : list string :=
  [".git"; "__pycache__"; ".vscode"; "venv"; "node_modules"].

(** The condition of line 21:
    [item not in IGNORE and not item.startswith(".")]. *)
Definition kept (item : string) : bool :=
  negb (existsb (String.eqb item) IGNORE) && negb (startswith item ".").

(** [sorted] on the entries of a directory, which are ordered by their
    names as strings are: character by character, a proper prefix first.
    Names being distinct, every sorting algorithm gives the same list;
    this one inserts each entry in turn. *)
Fixpoint insert (x : string * node) (l : list (string * node))
  : list (string * node) :=
  match l with
  | [] => [x]
  | y :: l' =>
      if String.leb (fst x) (fst y) then x :: l else y :: insert x l'
  end.

Fixpoint sorted (l : list (string * node)) : list (string * node) :=
  match l with
  | [] => []
  | x :: l' => insert x (sorted l')
  end.

(** [s * n] on a string. *)
Fixpoint times (s : string) (n : nat) : string :=
  match n with
  | O => ""
  | S n' => s ++ times s n'
  end.

(** [generate_markdown_tree], lines 15-32, with a bound [fuel] on the
    depth of the recursion. *)
Fixpoint walk (fuel : nat) (readable : bool) (entries : list (string * node))
    (indent : nat) : list string :=
  match fuel with
  | O => []
  | S fuel' =>
      if readable then
        let items := sorted (filter (fun item => kept (fst item)) entries) in
        fold_left
          (fun markdown_lines item =>
             let prefix :=
               times "  " indent ++
               (if isdir (snd item) then "- **" ++ fst item ++ "**"
                else "- " ++ fst item) in
             let markdown_lines := (markdown_lines ++ [prefix])%list in
             match snd item with
             | Dir r es =>
                 (markdown_lines ++ walk fuel' r es (S indent))%list
             | File => markdown_lines
             end)
          items []
      else []
  end.

(** The number of nested calls a tree asks for. *)
Fixpoint depth (n : node) : nat :=
  match n with
  | File => 0
  | Dir _ entries =>
      S (fold_right (fun e m => Nat.max (depth (snd e)) m) 0 entries)
  end.

(** [generate_markdown_tree(start_path, indent)], where [start_path] names
    a directory with the given entries. *)
Definition generate_markdown_tree (readable : bool)
    (entries : list (string * node)) (indent : nat) : list string :=
  walk (depth (Dir readable entries)) readable entries indent.

(** The part of a path after its last slash, when it has one. *)
Fixpoint after_last_slash (p : string) : option string :=
  match p with
  | EmptyString => None
  | String c p' =>
      match after_last_slash p' with
      | Some s => Some s
      | None => if Ascii.eqb c "/" then Some p' else None
      end
  end.

(** [os.path.basename] on a POSIX path. *)
Definition basename (p : string) : string :=
  match after_last_slash p with
  | Some s => s
  | None => p
  end.

Definition newline : string := String (ascii_of_nat 10) EmptyString.

(** [save_markdown_tree(start_path, output_file)], lines 35-41: the file it
    writes, as its path and its text. *)
Definition save_markdown_tree (start_path : string) (readable : bool)
    (entries : list (string * node)) (output_file : string)
  : string * string :=
  let lines :=
    ["# Directory Structure for `" ++ basename start_path ++ "`" ++ newline] in
  let lines := (lines ++ generate_markdown_tree readable entries 0)%list in
  (output_file, String.concat newline lines).

End GenerateTree.

(** ** What the tree printer shows *)

Module TreeSpec.
Import Py GenerateTree.

(** The number of entries shown below a directory: the kept entries, and
    below each kept directory that can be read, those it shows. *)
Fixpoint shown (n : node) : nat :=
  match n with
  | File => 0
  | Dir false _ => 0
  | Dir true entries =>
      fold_right
        (fun e m => if kept (fst e) then S (shown (snd e) + m) else m)
        0 entries
  end.

(** A tree without the entries that are not kept, at every level. *)
Fixpoint prune (n : node) : node :=
  match n with
  | File => File
  | Dir readable entries =>
      Dir readable
        (fold_right
           (fun e acc =>
              if kept (fst e) then (fst e, prune (snd e)) :: acc else acc)
           [] entries)
  end.

(** The entries of a directory, none for a file. *)
Definition entries_of (n : node) : list (string * node) :=
  match n with
  | Dir _ entries => entries
  | File => []
  end.

(** The line of an entry at nesting level [indent], line 28. *)
Definition item_line (indent : nat) (item : string * node) : string :=
  times "  " indent ++
  (if isdir (snd item) then "- **" ++ fst item ++ "**" else "- " ++ fst item).

(** The order of the entries: by name. *)
Definition by_name (x y : string * node) : Prop :=
  String.leb (fst x) (fst y) = true.

(** The lines of the entries shown below a directory, in the order of the
    listing: for each kept entry its line and, when it is a directory that
    can be read, the lines of what that directory shows, one level
    deeper. *)
Fixpoint shown_lines (indent : nat) (n : node) : list string :=
  match n with
  | File => []
  | Dir false _ => []
  | Dir true entries =>
      fold_right
        (fun e acc =>
           if kept (fst e)
           then (item_line indent e :: shown_lines (S indent) (snd e) ++ acc)%list
           else acc)
        [] entries
  end.

End TreeSpec.

(** ** What the loops accept *)

Module Behaviour.
Import Py Run Spec.

(** A card the flattening loop gets through: an object whose [variants] is
    false in a condition (absent, null, zero, empty) or is a list of
    objects. *)
Definition tolerated (card : pyval) : bool :=
  match card with
  | PyDict _ =>
      negb (truthy (field card "variants")) ||
      match field card "variants" with
      | PyList vs => forallb is_dict vs
      | _ => false
      end
  | _ => false
  end.

(** The keys of an object, in order. *)
Definition keys (v : pyval) : list string :=
  match v with
  | PyDict d => map fst d
  | _ => []
  end.

(** The keys of a row: the shared ones, then the variant-specific ones. *)
Definition row_keys : list string :=
  (map fst shared_fields ++ map fst variant_fields)%list.

(** The cards a decoded detail body holds: the list under [data], none
    when the field is absent. *)
Definition cards_of (d : list (string * pyval)) : list pyval :=
  match lookup "data" d with
  | Some (PyList cards) => cards
  | _ => []
  end.

End Behaviour.

(** ** Sample trees *)

Module TreeExamples.
Import GenerateTree.

(** A project directory: two files, a source directory with a cache and a
    directory that cannot be read, a repository directory and a virtual
    environment. *)
Definition project : list (string * node) :=
  [("src",
    Dir true
      [("b.py", File); ("a.py", File);
       ("__pycache__", Dir true [("a.pyc", File)]);
       ("locked", Dir false [("secret", File)])]);
   (".git", Dir true [("HEAD", File)]);
   ("README.md", File);
   ("venv", Dir true [("pyvenv.cfg", File)]);
   ("Zed", File)].

End TreeExamples.

(** ** Properties *)

Import Py Run Spec Examples Behaviour.
Import GenerateTree TreeSpec TreeExamples.

(** *** Reading fields *)

Lemma get_dict (d : list (string * pyval)) (k : string) :
  get (PyDict d) k = Ok (field (PyDict d) k).
Proof.
  unfold get, get_default, field.
  destruct (lookup k d); reflexivity.
Qed.

Lemma get_not_dict (v : pyval) (k : string) :
  is_dict v = false -> get v k = Raise AttributeError.
Proof.
  destruct v; simpl; intros H; try reflexivity; discriminate.
Qed.

Lemma is_dict_inv (v : pyval) :
  is_dict v = true -> exists d, v = PyDict d.
Proof.
  destruct v; simpl; intros H; try discriminate.
  eexists; reflexivity.
Qed.

(** *** The rows of one record *)

Lemma base_dict (d : list (string * pyval)) :
  ApiTest.base (PyDict d) =
  Ok (map (fun f => (fst f, field (PyDict d) (snd f))) shared_fields).
Proof.
  unfold ApiTest.base.
  rewrite !get_dict.
  reflexivity.
Qed.

Lemma variant_row_dict (card : pyval) (dv : list (string * pyval)) :
  ApiTest.variant_row
    (map (fun f => (fst f, field card (snd f))) shared_fields) (PyDict dv) =
  Ok (flat_row card (PyDict dv)).
Proof.
  unfold ApiTest.variant_row.
  rewrite !get_dict.
  reflexivity.
Qed.

Lemma for_v_rows (card : pyval) (vs : list pyval) :
  forallb is_dict vs = true ->
  forall acc,
    ApiTest.for_v
      (map (fun f => (fst f, field card (snd f))) shared_fields) vs acc =
    Ok (acc ++ map (flat_row card) vs)%list.
Proof.
  induction vs as [|v vs IH]; intros Hvs acc.
  - simpl. rewrite app_nil_r. reflexivity.
  - simpl in Hvs. apply andb_true_iff in Hvs as [Hv Hvs].
    destruct (is_dict_inv v Hv) as [dv ->].
    cbn [ApiTest.for_v].
    rewrite variant_row_dict.
    cbn [bind].
    rewrite (IH Hvs).
    rewrite <- app_assoc.
    reflexivity.
Qed.

(** The variants the inner loop ranges over, for a detail record. *)
Lemma iter_variants (d : list (string * pyval)) :
  detail_record (PyDict d) = true ->
  iter (or_ (field (PyDict d) "variants") (PyList [])) =
  Ok (variants_of (PyDict d)).
Proof.
  unfold detail_record, field, variants_of.
  destruct (lookup "variants" d) as [v|]; [|reflexivity].
  destruct v as [ | | | | |vs| ]; intros H; try discriminate; try reflexivity.
  destruct vs; reflexivity.
Qed.

Lemma variants_are_dicts (card : pyval) :
  detail_record card = true -> forallb is_dict (variants_of card) = true.
Proof.
  destruct card as [ | | | | | |d]; try reflexivity.
  unfold detail_record, variants_of.
  destruct (lookup "variants" d) as [v|]; [|reflexivity].
  destruct v; intros H; try reflexivity; exact H.
Qed.

(** One turn of the outer loop. *)
Lemma for_card_step (card : pyval) (cards acc : list pyval) :
  detail_record card = true ->
  ApiTest.for_card (card :: cards) acc =
  ApiTest.for_card cards (acc ++ map (flat_row card) (variants_of card))%list.
Proof.
  intros Hc.
  assert (Hd : exists d, card = PyDict d).
  { destruct card; try discriminate. eexists; reflexivity. }
  destruct Hd as [d ->].
  cbn [ApiTest.for_card].
  rewrite base_dict. cbn [bind].
  rewrite get_dict. cbn [bind].
  rewrite (iter_variants d Hc). cbn [bind].
  rewrite (for_v_rows (PyDict d) _ (variants_are_dicts _ Hc)).
  reflexivity.
Qed.

(** The two loops compute [flat_rows], appended to what was there. *)
Lemma for_card_rows (cards : list pyval) :
  forallb detail_record cards = true ->
  forall acc, ApiTest.for_card cards acc = Ok (acc ++ flat_rows cards)%list.
Proof.
  induction cards as [|card cards IH]; intros Hcs acc.
  - simpl. rewrite app_nil_r. reflexivity.
  - simpl in Hcs. apply andb_true_iff in Hcs as [Hc Hcs].
    rewrite (for_card_step card cards acc Hc).
    rewrite (IH Hcs).
    unfold flat_rows. simpl. rewrite <- app_assoc. reflexivity.
Qed.

Lemma flatten_rows (cards : list pyval) :
  forallb detail_record cards = true ->
  ApiTest.flatten (PyList cards) = Ok (flat_rows cards).
Proof.
  intros H. unfold ApiTest.flatten. simpl.
  rewrite (for_card_rows cards H). reflexivity.
Qed.

Lemma length_flat_rows (cards : list pyval) :
  List.length (flat_rows cards) =
  list_sum (map (fun card => List.length (variants_of card)) cards).
Proof.
  unfold flat_rows.
  induction cards as [|card cards IH]; simpl.
  - reflexivity.
  - rewrite length_app, length_map, IH. reflexivity.
Qed.

(** *** The catalog entries *)

Lemma entry_dict (d : list (string * pyval)) :
  ListGames.entry (PyDict d) = Ok (catalog_entry (PyDict d)).
Proof.
  unfold ListGames.entry.
  rewrite !get_dict.
  reflexivity.
Qed.

Lemma comprehension_entries (items : list pyval) :
  forallb is_dict items = true ->
  ListGames.comprehension ListGames.entry items =
  Ok (map catalog_entry items).
Proof.
  induction items as [|s items IH]; intros H.
  - reflexivity.
  - simpl in H. apply andb_true_iff in H as [Hs H].
    destruct (is_dict_inv s Hs) as [d ->].
    cbn [ListGames.comprehension].
    rewrite entry_dict. cbn [bind].
    rewrite (IH H). reflexivity.
Qed.

Lemma simple_list_entries (items : list pyval) :
  forallb is_dict items = true ->
  ListGames.simple_list (PyList items) = Ok (map catalog_entry items).
Proof.
  intros H. unfold ListGames.simple_list. simpl.
  apply comprehension_entries, H.
Qed.

(** *** The steps of a run *)

Lemma api_key_check (env : string -> option string) :
  credential_accepted env ->
  negb (truthy (PyStr (ApiTest.API_KEY env))) ||
  startswith (ApiTest.API_KEY env) "YOUR_" = false.
Proof.
  intros [Hne Hpre]. rewrite Hpre, orb_false_r.
  simpl. rewrite negb_involutive.
  apply String.eqb_neq, Hne.
Qed.

Lemma literal_key_check :
  negb (truthy (PyStr ListGames.API_KEY)) ||
  contains "YOUR_API_KEY_HERE" ListGames.API_KEY = false.
Proof. reflexivity. Qed.

Lemma raise_for_status_ok (r : response) :
  success_status r -> raise_for_status r = Ok tt.
Proof.
  unfold success_status, raise_for_status. intros H.
  destruct (400 <=? status_code r)%Z eqn:E1;
    destruct (status_code r <? 600)%Z eqn:E2; try reflexivity.
  apply Z.leb_le in E1. apply Z.ltb_lt in E2. lia.
Qed.

Lemma raise_for_status_fail (r : response) :
  failure_status r -> raise_for_status r = Raise (HTTPError (status_code r)).
Proof.
  unfold failure_status, raise_for_status. intros [H1 H2].
  apply Z.leb_le in H1. apply Z.ltb_lt in H2.
  rewrite H1, H2. reflexivity.
Qed.

(** The detail fetcher touches a file only after the fetch and the
    flattening step have succeeded, and then once, for the whole list of
    rows. *)
Lemma api_test_write_after_flatten (env : string -> option string)
    (net : request -> net_outcome) :
  files_written (fst (ApiTest.main env net)) = [] \/
  exists r body cards rows,
    net (ApiTest.cards_request env) = Responds r /\
    raise_for_status r = Ok tt /\
    json r = Ok body /\
    get_default body "data" (PyList []) = Ok cards /\
    ApiTest.flatten cards = Ok rows /\
    (files_written (fst (ApiTest.main env net)) =
       [EvDump ApiTest.OUTPUT_FILE (PyList rows)] \/
     files_written (fst (ApiTest.main env net)) =
       [EvPartial ApiTest.OUTPUT_FILE (PyList rows)]).
Proof.
  unfold ApiTest.main.
  destruct (negb (truthy (PyStr (ApiTest.API_KEY env))) ||
            startswith (ApiTest.API_KEY env) "YOUR_"); [left; reflexivity|].
  unfold requests_get.
  destruct (net (ApiTest.cards_request env)) as [r|] eqn:Hnet;
    [|left; reflexivity].
  cbn [then_ lift].
  destruct (raise_for_status r) as [[]|] eqn:Hst; [|left; reflexivity].
  destruct (json r) as [body|] eqn:Hbody; [|left; reflexivity].
  destruct (get_default body "data" (PyList [])) as [cards|] eqn:Hdata;
    [|left; reflexivity].
  destruct (isinstance_list cards); cbn [negb]; [|left; reflexivity].
  cbn [then_ lift].
  destruct (ApiTest.flatten cards) as [rows|] eqn:Hflat;
    [|left; reflexivity].
  right. exists r, body, cards, rows.
  repeat (split; [first [assumption|reflexivity]|]).
  unfold dump. destruct (encodable (PyList rows));
    [left|right]; reflexivity.
Qed.

(** The catalog fetcher touches a file only after the fetch and the
    comprehension have succeeded, and then once, for the whole list of
    entries. *)
Lemma list_games_write_after_list (api_key : string)
    (net : request -> net_outcome) :
  files_written (fst (ListGames.script api_key net)) = [] \/
  exists r data sets simple,
    net (ListGames.sets_request api_key) = Responds r /\
    raise_for_status r = Ok tt /\
    json r = Ok data /\
    get_default data "data" (PyList []) = Ok sets /\
    ListGames.simple_list sets = Ok simple /\
    (files_written (fst (ListGames.script api_key net)) =
       [EvDump ListGames.output_file (PyList simple)] \/
     files_written (fst (ListGames.script api_key net)) =
       [EvPartial ListGames.output_file (PyList simple)]).
Proof.
  unfold ListGames.script.
  destruct (negb (truthy (PyStr api_key)) ||
            contains "YOUR_API_KEY_HERE" api_key); [left; reflexivity|].
  unfold requests_get.
  destruct (net (ListGames.sets_request api_key)) as [r|] eqn:Hnet;
    [|left; reflexivity].
  cbn [then_ lift].
  destruct (raise_for_status r) as [[]|] eqn:Hst; [|left; reflexivity].
  destruct (json r) as [data|] eqn:Hbody; [|left; reflexivity].
  destruct (get_default data "data" (PyList [])) as [sets|] eqn:Hdata;
    [|left; reflexivity].
  destruct (ListGames.simple_list sets) as [simple|] eqn:Hlist;
    [|left; reflexivity].
  right. exists r, data, sets, simple.
  repeat (split; [first [assumption|reflexivity]|]).
  unfold dump. destruct (encodable (PyList simple));
    [left|right]; reflexivity.
Qed.

(** *** Rows and their parents *)

Lemma carries_shared_flat_row (d dv : list (string * pyval)) :
  carries_shared (flat_row (PyDict d) (PyDict dv)) (PyDict d).
Proof.
  intros f Hf. rewrite (get_dict d).
  simpl in Hf.
  repeat (destruct Hf as [<-|Hf]; [reflexivity|]).
  contradiction.
Qed.

Lemma emitted_flat_row (d dv : list (string * pyval)) :
  emitted (PyDict d) (PyDict dv) (flat_row (PyDict d) (PyDict dv)).
Proof.
  eexists. split.
  - apply base_dict.
  - apply variant_row_dict.
Qed.

Lemma emitted_inv (card v row : pyval) :
  emitted card v row ->
  is_dict card = true /\ is_dict v = true /\ row = flat_row card v.
Proof.
  intros [b [Hb Hrow]].
  destruct card as [ | | | | | |d]; try discriminate Hb.
  assert (Eb : b = map (fun f => (fst f, field (PyDict d) (snd f)))
                     shared_fields).
  { rewrite base_dict in Hb. congruence. }
  subst b.
  destruct v as [ | | | | | |dv]; try discriminate Hrow.
  rewrite variant_row_dict in Hrow.
  repeat split. congruence.
Qed.

Lemma lookup_app_other (k : string) (a b : list (string * pyval)) :
  ~ In k (map fst b) -> lookup k (a ++ b) = lookup k a.
Proof.
  intros Hk. induction a as [|[k' v] a IH]; simpl.
  - induction b as [|[k' v] b IHb]; simpl; [reflexivity|].
    destruct (String.eqb_spec k k') as [->|Hne].
    + exfalso. apply Hk. left. reflexivity.
    + apply IHb. intros Hin. apply Hk. right. exact Hin.
  - destruct (String.eqb k k'); [reflexivity|exact IH].
Qed.

Lemma same_parent_agree (card v1 v2 : pyval) :
  agree_outside_variant (flat_row card v1) (flat_row card v2).
Proof.
  intros k Hk. unfold flat_row, get, get_default.
  rewrite !lookup_app_other; [reflexivity| |];
    rewrite map_map; exact Hk.
Qed.

Lemma rows_match_pairs (cards : list pyval) :
  forallb detail_record cards = true ->
  Forall2 (fun row cv =>
             emitted (fst cv) (snd cv) row /\ carries_shared row (fst cv))
          (flat_rows cards) (parent_variant_pairs cards).
Proof.
  unfold flat_rows, parent_variant_pairs.
  induction cards as [|card cards IH]; intros H; simpl.
  - constructor.
  - simpl in H. apply andb_true_iff in H as [Hc Hcs].
    apply Forall2_app; [|exact (IH Hcs)].
    pose proof (variants_are_dicts card Hc) as Hvs.
    assert (Hd : exists d, card = PyDict d).
    { destruct card; try discriminate. eexists; reflexivity. }
    destruct Hd as [d ->].
    induction (variants_of (PyDict d)) as [|v vs IHv]; simpl.
    + constructor.
    + simpl in Hvs. apply andb_true_iff in Hvs as [Hv Hvs].
      destruct (is_dict_inv v Hv) as [dv ->].
      constructor; [|exact (IHv Hvs)].
      split; [apply emitted_flat_row|apply carries_shared_flat_row].
Qed.

(** *** The properties of the specification *)

(** C1. For every sequence of detail records, the flattening step returns
    as many rows as the variant sequences of the records hold together; a
    record whose variant sequence is empty leaves the list of rows as it
    was, so no placeholder row is added for it. *)
Theorem flat_variant_count (cards : list pyval) :
  forallb detail_record cards = true ->
  exists rows,
    ApiTest.flatten (PyList cards) = Ok rows /\
    List.length rows =
      list_sum (map (fun card => List.length (variants_of card)) cards) /\
    (forall card rest acc,
        detail_record card = true -> variants_of card = [] ->
        ApiTest.for_card (card :: rest) acc = ApiTest.for_card rest acc).
Proof.
  intros H. exists (flat_rows cards). split; [|split].
  - apply flatten_rows, H.
  - apply length_flat_rows.
  - intros card rest acc Hc Hv.
    rewrite (for_card_step card rest acc Hc), Hv.
    simpl. rewrite app_nil_r. reflexivity.
Qed.

(** C2. For every sequence of detail records the flattening step returns
    one row per (parent, variant) pair, in order; the row of a pair is the
    one the loop body builds for that variant, and it holds under each
    shared field (card_id, name, game, set_id, set_name, number, rarity,
    details, tcgplayerId, mtgjsonId, scryfallId) the value the parent has
    for the corresponding field.  Two rows emitted for the same parent agree
    on every field that is not variant-specific. *)
Theorem rows_carry_parent_fields (cards : list pyval) :
  forallb detail_record cards = true ->
  exists rows,
    ApiTest.flatten (PyList cards) = Ok rows /\
    Forall2 (fun row cv =>
               emitted (fst cv) (snd cv) row /\ carries_shared row (fst cv))
            rows (parent_variant_pairs cards) /\
    (forall card v1 v2 r1 r2,
        emitted card v1 r1 -> emitted card v2 r2 ->
        agree_outside_variant r1 r2).
Proof.
  intros H. exists (flat_rows cards). split; [|split].
  - apply flatten_rows, H.
  - apply rows_match_pairs, H.
  - intros card v1 v2 r1 r2 H1 H2.
    apply emitted_inv in H1 as [_ [_ ->]].
    apply emitted_inv in H2 as [_ [_ ->]].
    apply same_parent_agree.
Qed.

(** C9. A detail record whose [variants] field is absent or null is passed
    over by the flattening step: the loop goes on to the next record with
    the rows unchanged, and a response made of that record alone flattens
    to no row, without an exception. *)
Theorem null_variants_no_rows (d : list (string * pyval)) :
  lookup "variants" d = None \/ lookup "variants" d = Some PyNone ->
  (forall rest acc,
      ApiTest.for_card (PyDict d :: rest) acc = ApiTest.for_card rest acc) /\
  ApiTest.flatten (PyList [PyDict d]) = Ok [].
Proof.
  intros H.
  assert (Hc : detail_record (PyDict d) = true).
  { unfold detail_record. destruct H as [-> | ->]; reflexivity. }
  assert (Hv : variants_of (PyDict d) = []).
  { unfold variants_of. destruct H as [-> | ->]; reflexivity. }
  assert (Hstep : forall rest acc,
             ApiTest.for_card (PyDict d :: rest) acc =
             ApiTest.for_card rest acc).
  { intros rest acc. rewrite (for_card_step _ rest acc Hc), Hv.
    simpl. rewrite app_nil_r. reflexivity. }
  split; [exact Hstep|].
  unfold ApiTest.flatten. cbn [iter bind].
  rewrite Hstep. reflexivity.
Qed.

(** C10. Both fetchers keep the order of their input.  The catalog output
    is the list of entries of the items, item by item; the flattened output
    lists the rows grouped by parent record in the order of the response,
    the variants of each record in their own order. *)
Theorem order_preserved :
  (forall items,
      forallb is_dict items = true ->
      ListGames.simple_list (PyList items) = Ok (map catalog_entry items)) /\
  (forall cards,
      forallb detail_record cards = true ->
      ApiTest.flatten (PyList cards) =
      Ok (flat_map (fun card => map (flat_row card) (variants_of card))
            cards)).
Proof.
  split.
  - apply simple_list_entries.
  - apply flatten_rows.
Qed.

(** C3, as the code has it.  When the top-level object of a successful
    detail response holds the list field with a value that is not a list,
    the run ends in a ShapeError after the request and writes no file.  When
    the object lacks the field, [body.get("data", [])] reads it as an empty
    list: the run succeeds and writes an empty list of rows. *)
Theorem non_list_data_shape_error (env : string -> option string)
    (net : request -> net_outcome) (r : response)
    (d : list (string * pyval)) :
  credential_accepted env ->
  net (ApiTest.cards_request env) = Responds r ->
  success_status r ->
  json_body r = Some (PyDict d) ->
  (forall v,
      lookup "data" d = Some v -> isinstance_list v = false ->
      exists e,
        ApiTest.main env net =
          ([EvGet (ApiTest.cards_request env)], Raise e) /\
        ShapeError e) /\
  (lookup "data" d = None ->
   ApiTest.main env net =
     ([EvGet (ApiTest.cards_request env);
       EvDump ApiTest.OUTPUT_FILE (PyList [])], Ok tt)).
Proof.
  intros Hcred Hnet Hst Hbody.
  unfold ApiTest.main.
  rewrite (api_key_check env Hcred).
  unfold requests_get. rewrite Hnet.
  cbn [then_ lift].
  rewrite (raise_for_status_ok r Hst).
  unfold json. rewrite Hbody.
  unfold get_default.
  split.
  - intros v Hv Hnl. rewrite Hv, Hnl.
    eexists. split; [reflexivity|].
    eexists. reflexivity.
  - intros Hnone. rewrite Hnone. reflexivity.
Qed.

(** C3, as stated, fails: a successful detail response whose top-level
    object has no [data] field ends the run normally, with an empty list of
    rows written, and not in a ShapeError. *)
Lemma missing_data_read_as_empty :
  lookup "data" [] = None /\
  ApiTest.main env_unset (answers 200 (PyDict [])) =
    ([EvGet (ApiTest.cards_request env_unset);
      EvDump ApiTest.OUTPUT_FILE (PyList [])], Ok tt) /\
  ~ (exists e, snd (ApiTest.main env_unset (answers 200 (PyDict []))) =
               Raise e /\ ShapeError e).
Proof.
  split; [reflexivity|]. split; [reflexivity|].
  intros [e [He _]]. discriminate He.
Qed.

(** C4, at the failing inputs.  The detail fetcher answers the body
    [{"data": "not-a-list"}] with a ShapeError; the catalog fetcher has no
    shape check: on the same body it iterates the characters of the string
    and ends in an [AttributeError], which is not a ShapeError, and on
    [{"data": ""}] it takes the string for an empty collection, writes an
    empty catalog and ends normally. *)
Theorem catalog_takes_non_list :
  (exists e,
      ApiTest.main env_unset
        (answers 200 (PyDict [("data", PyStr "not-a-list")])) =
        ([EvGet (ApiTest.cards_request env_unset)], Raise e) /\
      ShapeError e) /\
  ListGames.main (answers 200 (PyDict [("data", PyStr "not-a-list")])) =
    ([EvGet (ListGames.sets_request ListGames.API_KEY)],
     Raise AttributeError) /\
  ~ ShapeError AttributeError /\
  ListGames.main (answers 200 (PyDict [("data", PyStr "")])) =
    ([EvGet (ListGames.sets_request ListGames.API_KEY);
      EvDump ListGames.output_file (PyList [])], Ok tt).
Proof.
  split; [|split; [|split]].
  - eexists. split; [reflexivity|]. eexists. reflexivity.
  - reflexivity.
  - intros [body H]. discriminate H.
  - reflexivity.
Qed.

(** C5. When the resolved credential is empty or is a placeholder (for the
    detail fetcher a key that starts with [YOUR_], for the catalog fetcher a
    key that contains [YOUR_API_KEY_HERE]), the run ends in a
    ConfigurationError with an empty trace: no request was sent. *)
Theorem rejected_credential_no_request (env : string -> option string)
    (api_key : string) (net : request -> net_outcome) :
  (ApiTest.API_KEY env = "" \/
   startswith (ApiTest.API_KEY env) "YOUR_" = true ->
   exists e, ApiTest.main env net = ([], Raise e) /\ ConfigurationError e) /\
  (api_key = "" \/ contains "YOUR_API_KEY_HERE" api_key = true ->
   exists e,
     ListGames.script api_key net = ([], Raise e) /\ ConfigurationError e).
Proof.
  split; intros H.
  - unfold ApiTest.main.
    assert (E : negb (truthy (PyStr (ApiTest.API_KEY env))) ||
                startswith (ApiTest.API_KEY env) "YOUR_" = true).
    { destruct H as [-> | ->]; [reflexivity|apply orb_true_r]. }
    rewrite E. eexists. split; [reflexivity|].
    eexists. split; reflexivity.
  - unfold ListGames.script.
    assert (E : negb (truthy (PyStr api_key)) ||
                contains "YOUR_API_KEY_HERE" api_key = true).
    { destruct H as [-> | ->]; [reflexivity|apply orb_true_r]. }
    rewrite E. eexists. split; [reflexivity|].
    eexists. split; reflexivity.
Qed.

(** C6. When the response has a failure status (4xx or 5xx), each script
    ends in an HttpError with the request as its only effect: no file is
    written.  More generally either script touches a file only once the
    fetch and the reshaping step have both succeeded, and then once, for
    the complete result: a failure of the fetch or of the reshaping leaves
    no file, whatever had been computed. *)
Theorem http_failure_no_output (env : string -> option string)
    (net : request -> net_outcome) (r : response) :
  credential_accepted env ->
  (forall req, net req = Responds r) ->
  failure_status r ->
  (exists e,
      ApiTest.main env net =
        ([EvGet (ApiTest.cards_request env)], Raise e) /\ HttpError e) /\
  (exists e,
      ListGames.main net =
        ([EvGet (ListGames.sets_request ListGames.API_KEY)], Raise e) /\
      HttpError e) /\
  (forall env' net',
      files_written (fst (ApiTest.main env' net')) = [] \/
      exists r' body cards rows,
        net' (ApiTest.cards_request env') = Responds r' /\
        raise_for_status r' = Ok tt /\
        json r' = Ok body /\
        get_default body "data" (PyList []) = Ok cards /\
        ApiTest.flatten cards = Ok rows /\
        (files_written (fst (ApiTest.main env' net')) =
           [EvDump ApiTest.OUTPUT_FILE (PyList rows)] \/
         files_written (fst (ApiTest.main env' net')) =
           [EvPartial ApiTest.OUTPUT_FILE (PyList rows)])) /\
  (forall api_key net',
      files_written (fst (ListGames.script api_key net')) = [] \/
      exists r' data sets simple,
        net' (ListGames.sets_request api_key) = Responds r' /\
        raise_for_status r' = Ok tt /\
        json r' = Ok data /\
        get_default data "data" (PyList []) = Ok sets /\
        ListGames.simple_list sets = Ok simple /\
        (files_written (fst (ListGames.script api_key net')) =
           [EvDump ListGames.output_file (PyList simple)] \/
         files_written (fst (ListGames.script api_key net')) =
           [EvPartial ListGames.output_file (PyList simple)])).
Proof.
  intros Hcred Hnet Hst.
  split; [|split; [|split]].
  - unfold ApiTest.main.
    rewrite (api_key_check env Hcred).
    unfold requests_get. rewrite Hnet.
    cbn [then_ lift].
    rewrite (raise_for_status_fail r Hst).
    eexists. split; [reflexivity|]. eexists. reflexivity.
  - unfold ListGames.main, ListGames.script.
    rewrite literal_key_check.
    unfold requests_get. rewrite Hnet.
    cbn [then_ lift].
    rewrite (raise_for_status_fail r Hst).
    eexists. split; [reflexivity|]. eexists. reflexivity.
  - apply api_test_write_after_flatten.
  - apply list_games_write_after_list.
Qed.



(** C8. For a raw catalog item that lacks one of the fields id, name,
    variants_count, cards_count, the entry built for it holds [None] under
    that field: neither zero nor the empty string. *)
Theorem missing_field_is_none (d : list (string * pyval)) (k : string) :
  In k catalog_fields ->
  lookup k d = None ->
  exists e,
    ListGames.entry (PyDict d) = Ok (PyDict e) /\
    lookup k e = Some PyNone /\
    lookup k e <> Some (PyInt 0) /\
    lookup k e <> Some (PyStr "").
Proof.
  intros Hk Hnone.
  eexists. split; [apply entry_dict|].
  assert (E : lookup k (map (fun k0 => (k0, field (PyDict d) k0))
                          catalog_fields) = Some PyNone).
  { simpl in Hk.
    repeat (destruct Hk as [<-|Hk];
            [simpl; simpl in Hnone; rewrite Hnone; reflexivity|]).
    contradiction. }
  rewrite E. repeat split; discriminate.
Qed.

(** *** The properties at sample inputs *)

(** The detail scenario of the specification: one record with two variants
    gives two rows, both with the record's id and name. *)
Example detail_scenario :
  exists r1 r2,
    ApiTest.main env_unset (answers 200 (PyDict [("data", PyList [snivy])])) =
      ([EvGet (ApiTest.cards_request env_unset);
        EvDump ApiTest.OUTPUT_FILE (PyList [PyDict r1; PyDict r2])], Ok tt) /\
    lookup "card_id" r1 = Some (PyStr "c1") /\
    lookup "card_id" r2 = Some (PyStr "c1") /\
    lookup "name" r1 = Some (PyStr "Snivy") /\
    lookup "name" r2 = Some (PyStr "Snivy") /\
    lookup "variant_id" r1 = Some (PyStr "v1") /\
    lookup "variant_id" r2 = Some (PyStr "v2").
Proof.
  do 2 eexists. split; [reflexivity|].
  repeat split.
Qed.

(** The catalog scenario of the specification: one item in, one entry out
    with the same four fields. *)
Example catalog_scenario :
  ListGames.main (answers 200 (PyDict [("data", PyList [set_one])])) =
    ([EvGet (ListGames.sets_request ListGames.API_KEY);
      EvDump ListGames.output_file (PyList [set_one])], Ok tt).
Proof. reflexivity. Qed.

Lemma flat_variant_count_witness :
  forallb detail_record [snivy; servine] = true /\
  exists rows,
    ApiTest.flatten (PyList [snivy; servine]) = Ok rows /\
    List.length rows = 2.
Proof.
  split; [reflexivity|].
  destruct (flat_variant_count [snivy; servine] eq_refl) as [rows [H1 [H2 _]]].
  exists rows. split; [exact H1|exact H2].
Defined.

Lemma rows_carry_parent_fields_witness :
  forallb detail_record [snivy; servine] = true /\
  exists rows,
    ApiTest.flatten (PyList [snivy; servine]) = Ok rows /\
    Forall2 (fun row cv =>
               emitted (fst cv) (snd cv) row /\ carries_shared row (fst cv))
            rows (parent_variant_pairs [snivy; servine]).
Proof.
  split; [reflexivity|].
  destruct (rows_carry_parent_fields [snivy; servine] eq_refl)
    as [rows [H1 [H2 _]]].
  exists rows. split; [exact H1|exact H2].
Defined.

Lemma non_list_data_shape_error_witness :
  credential_accepted env_unset /\
  success_status {| status_code := 200;
                    json_body := Some (PyDict [("data", PyStr "not-a-list")]) |} /\
  exists e,
    ApiTest.main env_unset
      (answers 200 (PyDict [("data", PyStr "not-a-list")])) =
      ([EvGet (ApiTest.cards_request env_unset)], Raise e) /\
    ShapeError e.
Proof.
  assert (Hc : credential_accepted env_unset).
  { split; [intros H; discriminate H|reflexivity]. }
  assert (Hs : success_status
                 {| status_code := 200;
                    json_body :=
                      Some (PyDict [("data", PyStr "not-a-list")]) |}).
  { left. simpl. lia. }
  split; [exact Hc|]. split; [exact Hs|].
  destruct (non_list_data_shape_error env_unset
              (answers 200 (PyDict [("data", PyStr "not-a-list")]))
              _ _ Hc eq_refl Hs eq_refl) as [H _].
  apply (H (PyStr "not-a-list")); reflexivity.
Defined.

Lemma rejected_credential_no_request_witness :
  (exists e,
      ApiTest.main (env_key "") (answers 200 (PyDict [])) = ([], Raise e) /\
      ConfigurationError e) /\
  (exists e,
      ListGames.script "YOUR_API_KEY_HERE" (answers 200 (PyDict [])) =
        ([], Raise e) /\
      ConfigurationError e).
Proof.
  destruct (rejected_credential_no_request (env_key "") "YOUR_API_KEY_HERE"
              (answers 200 (PyDict []))) as [H1 H2].
  split.
  - apply H1. left. reflexivity.
  - apply H2. right. reflexivity.
Defined.

Lemma http_failure_no_output_witness :
  credential_accepted env_unset /\
  failure_status {| status_code := 404; json_body := Some (PyDict []) |} /\
  (exists e,
      ApiTest.main env_unset (answers 404 (PyDict [])) =
        ([EvGet (ApiTest.cards_request env_unset)], Raise e) /\ HttpError e) /\
  (exists e,
      ListGames.main (answers 404 (PyDict [])) =
        ([EvGet (ListGames.sets_request ListGames.API_KEY)], Raise e) /\
      HttpError e).
Proof.
  assert (Hc : credential_accepted env_unset).
  { split; [intros H; discriminate H|reflexivity]. }
  assert (Hs : failure_status
                 {| status_code := 404; json_body := Some (PyDict []) |}).
  { unfold failure_status. simpl. lia. }
  split; [exact Hc|]. split; [exact Hs|].
  destruct (http_failure_no_output env_unset (answers 404 (PyDict [])) _
              Hc (fun _ => eq_refl) Hs) as [H1 [H2 _]].
  split; [exact H1|exact H2].
Defined.


Lemma missing_field_is_none_witness :
  In "cards_count" catalog_fields /\
  lookup "cards_count" [("id", PyStr "s1"); ("name", PyStr "Set One")] = None /\
  exists e,
    ListGames.entry (PyDict [("id", PyStr "s1"); ("name", PyStr "Set One")]) =
      Ok (PyDict e) /\
    lookup "cards_count" e = Some PyNone /\
    lookup "cards_count" e <> Some (PyInt 0) /\
    lookup "cards_count" e <> Some (PyStr "").
Proof.
  assert (Hin : In "cards_count" catalog_fields).
  { simpl. right. right. right. left. reflexivity. }
  split; [exact Hin|]. split; [reflexivity|].
  exact (missing_field_is_none
           [("id", PyStr "s1"); ("name", PyStr "Set One")] "cards_count"
           Hin eq_refl).
Defined.

Lemma null_variants_no_rows_witness :
  lookup "variants"
    [("id", PyStr "c2"); ("name", PyStr "Servine"); ("variants", PyNone)] =
    Some PyNone /\
  ApiTest.flatten (PyList [servine]) = Ok [].
Proof.
  split; [reflexivity|].
  exact (proj2 (null_variants_no_rows
                  [("id", PyStr "c2"); ("name", PyStr "Servine");
                   ("variants", PyNone)]
                  (or_intror eq_refl))).
Defined.

Lemma order_preserved_witness :
  ListGames.simple_list (PyList [set_one; set_one]) =
    Ok (map catalog_entry [set_one; set_one]) /\
  ApiTest.flatten (PyList [servine; snivy]) =
    Ok (flat_map (fun card => map (flat_row card) (variants_of card))
          [servine; snivy]).
Proof.
  destruct order_preserved as [H1 H2].
  split.
  - apply (H1 [set_one; set_one]). reflexivity.
  - apply (H2 [servine; snivy]). reflexivity.
Defined.

(** ** Further properties of the scripts *)

(** *** The flattening loops on arbitrary input *)

Lemma variant_row_not_dict (b : list (string * pyval)) (v : pyval) :
  is_dict v = false -> ApiTest.variant_row b v = Raise AttributeError.
Proof.
  destruct v; intros H; try discriminate H; reflexivity.
Qed.

Lemma base_not_dict (card : pyval) :
  is_dict card = false -> ApiTest.base card = Raise AttributeError.
Proof.
  destruct card; intros H; try discriminate H; reflexivity.
Qed.

(** A [str] that is not empty has a first character. *)
Lemma chars_cons (c : ascii) (s : string) :
  exists t rest, chars (String c s) = PyStr t :: rest.
Proof.
  cbn [chars]. destruct s as [|c' s']; [do 2 eexists; reflexivity|].
  destruct (is_continuation c'); [|do 2 eexists; reflexivity].
  destruct (chars (String c' s')) as [|[ | | | |t| | ] rest];
    do 2 eexists; reflexivity.
Qed.

(** The inner loop stops at the first variant that is not an object. *)
Lemma for_v_raise (card : pyval) (vs : list pyval) :
  forallb is_dict vs = false ->
  forall acc,
    ApiTest.for_v
      (map (fun f => (fst f, field card (snd f))) shared_fields) vs acc =
    Raise AttributeError.
Proof.
  induction vs as [|v vs IH]; intros H acc; [discriminate H|].
  simpl in H. cbn [ApiTest.for_v].
  destruct (is_dict v) eqn:Hv.
  - destruct (is_dict_inv v Hv) as [dv ->].
    rewrite variant_row_dict. cbn [bind].
    apply IH. exact H.
  - rewrite (variant_row_not_dict _ v Hv). reflexivity.
Qed.

Lemma iter_variants_tolerated (d : list (string * pyval)) :
  tolerated (PyDict d) = true ->
  iter (or_ (field (PyDict d) "variants") (PyList [])) =
    Ok (variants_of (PyDict d)) /\
  forallb is_dict (variants_of (PyDict d)) = true.
Proof.
  unfold tolerated, field, variants_of.
  destruct (lookup "variants" d) as [x|]; [|split; reflexivity].
  destruct x as [ |b|n|bits|s|vs|d0]; unfold or_; simpl.
  - split; reflexivity.
  - destruct b; simpl; intros H; [discriminate H|split; reflexivity].
  - destruct (n =? 0)%Z; simpl; intros H; [split; reflexivity|discriminate H].
  - destruct (Z.land bits _ =? 0)%Z; simpl; intros H;
      [split; reflexivity|discriminate H].
  - destruct s; simpl; intros H; [split; reflexivity|discriminate H].
  - destruct vs; simpl; intros H; [split; reflexivity|].
    split; [reflexivity|exact H].
  - destruct d0; simpl; intros H; [split; reflexivity|discriminate H].
Qed.

(** One turn of the outer loop on a card it gets through. *)
Lemma for_card_step_tolerated (card : pyval) (cards acc : list pyval) :
  tolerated card = true ->
  ApiTest.for_card (card :: cards) acc =
  ApiTest.for_card cards (acc ++ map (flat_row card) (variants_of card))%list.
Proof.
  intros Hc.
  assert (Hd : exists d, card = PyDict d).
  { destruct card; try discriminate. eexists; reflexivity. }
  destruct Hd as [d ->].
  destruct (iter_variants_tolerated d Hc) as [Hit Hvs].
  cbn [ApiTest.for_card].
  rewrite base_dict. cbn [bind].
  rewrite get_dict. cbn [bind].
  rewrite Hit. cbn [bind].
  rewrite (for_v_rows (PyDict d) _ Hvs).
  reflexivity.
Qed.

(** One turn of the outer loop on any other card. *)
Lemma for_card_step_raise (card : pyval) (cards acc : list pyval) :
  tolerated card = false ->
  ApiTest.for_card (card :: cards) acc = Raise AttributeError \/
  ApiTest.for_card (card :: cards) acc = Raise TypeError.
Proof.
  intros Hc.
  destruct (is_dict card) eqn:Hd.
  - destruct (is_dict_inv card Hd) as [d ->].
    cbn [ApiTest.for_card].
    rewrite base_dict. cbn [bind].
    rewrite get_dict. cbn [bind].
    pose proof (for_v_raise (PyDict d)) as Hraise.
    set (B := map (fun f => (fst f, field (PyDict d) (snd f)))
                shared_fields) in *.
    revert Hc. unfold tolerated, field.
    destruct (lookup "variants" d) as [x|]; [|discriminate].
    destruct x as [ |b|n|bits|s|vs|d0]; unfold or_; simpl.
    + discriminate.
    + destruct b; simpl; intros H; [right; reflexivity|discriminate H].
    + destruct (n =? 0)%Z; simpl; intros H;
        [discriminate H|right; reflexivity].
    + destruct (Z.land bits _ =? 0)%Z; simpl; intros H;
        [discriminate H|right; reflexivity].
    + destruct s as [|a s]; cbn -[chars]; intros H; [discriminate H|].
      left. destruct (chars_cons a s) as [t [rest E]].
      rewrite E. reflexivity.
    + destruct vs as [|v vs]; simpl; intros H; [discriminate H|].
      left.
      pose proof (Hraise (v :: vs) H acc) as E.
      cbn [ApiTest.for_v] in E. rewrite E. reflexivity.
    + destruct d0 as [|[k x] d0]; simpl; intros H;
        [discriminate H|left; reflexivity].
  - left. cbn [ApiTest.for_card].
    rewrite (base_not_dict card Hd). reflexivity.
Qed.

Lemma for_card_tolerated (cards : list pyval) :
  forallb tolerated cards = true ->
  forall acc, ApiTest.for_card cards acc = Ok (acc ++ flat_rows cards)%list.
Proof.
  induction cards as [|card cards IH]; intros Hcs acc.
  - simpl. rewrite app_nil_r. reflexivity.
  - simpl in Hcs. apply andb_true_iff in Hcs as [Hc Hcs].
    rewrite (for_card_step_tolerated card cards acc Hc).
    rewrite (IH Hcs).
    unfold flat_rows. simpl. rewrite <- app_assoc. reflexivity.
Qed.

Lemma for_card_not_tolerated (cards : list pyval) :
  forallb tolerated cards = false ->
  forall acc,
    ApiTest.for_card cards acc = Raise AttributeError \/
    ApiTest.for_card cards acc = Raise TypeError.
Proof.
  induction cards as [|card cards IH]; intros Hcs acc; [discriminate Hcs|].
  simpl in Hcs.
  destruct (tolerated card) eqn:Hc.
  - rewrite (for_card_step_tolerated card cards acc Hc).
    apply IH. exact Hcs.
  - apply for_card_step_raise. exact Hc.
Qed.

Lemma raise_for_status_inv (r : response) :
  raise_for_status r = Ok tt -> success_status r.
Proof.
  unfold success_status, raise_for_status.
  destruct (400 <=? status_code r)%Z eqn:E1;
    destruct (status_code r <? 600)%Z eqn:E2; simpl; intros H;
    try discriminate H.
  - right. apply Z.ltb_ge in E2. exact E2.
  - left. apply Z.leb_gt in E1. exact E1.
  - left. apply Z.leb_gt in E1. exact E1.
Qed.

Lemma api_key_check_inv (env : string -> option string) :
  negb (truthy (PyStr (ApiTest.API_KEY env))) ||
  startswith (ApiTest.API_KEY env) "YOUR_" = false ->
  credential_accepted env.
Proof.
  intros H. apply orb_false_iff in H as [H1 H2].
  split; [|exact H2].
  simpl in H1. rewrite negb_involutive in H1.
  apply String.eqb_neq, H1.
Qed.

Lemma flat_rows_app (cards1 cards2 : list pyval) :
  flat_rows (cards1 ++ cards2) = (flat_rows cards1 ++ flat_rows cards2)%list.
Proof. unfold flat_rows. apply flat_map_app. Qed.

Lemma flat_row_keys (card v : pyval) :
  keys (flat_row card v) = row_keys.
Proof. reflexivity. Qed.

(** What the flattening step returns, and when. *)
Lemma flatten_spec (cards rows : list pyval) :
  ApiTest.flatten (PyList cards) = Ok rows <->
  forallb tolerated cards = true /\ rows = flat_rows cards.
Proof.
  unfold ApiTest.flatten. cbn [iter bind].
  split.
  - intros H. destruct (forallb tolerated cards) eqn:Hc.
    + rewrite (for_card_tolerated cards Hc) in H.
      split; [reflexivity|]. simpl in H. congruence.
    + destruct (for_card_not_tolerated cards Hc []) as [E|E];
        rewrite E in H; discriminate H.
  - intros [Hc ->]. rewrite (for_card_tolerated cards Hc). reflexivity.
Qed.

(** X1. The flattening step returns exactly when every card is an object
    whose [variants] is false in a condition or a list of objects, and what
    it returns is then one row per variant of the [variants] lists, in
    order: no row is invented, dropped or reordered. *)
Theorem flatten_ok_iff (cards rows : list pyval) :
  ApiTest.flatten (PyList cards) = Ok rows <->
  forallb tolerated cards = true /\ rows = flat_rows cards.
Proof.
  unfold ApiTest.flatten. cbn [iter bind].
  split.
  - intros H. destruct (forallb tolerated cards) eqn:Hc.
    + rewrite (for_card_tolerated cards Hc) in H.
      split; [reflexivity|]. simpl in H. congruence.
    + destruct (for_card_not_tolerated cards Hc []) as [E|E];
        rewrite E in H; discriminate H.
  - intros [Hc ->]. rewrite (for_card_tolerated cards Hc). reflexivity.
Qed.

(** X2. One card the loop cannot get through, wherever it stands in the
    response, makes the whole flattening step end in an [AttributeError] or
    a [TypeError]: the rows of the other cards are lost with it. *)
Theorem flatten_one_bad_card (cards : list pyval) (card : pyval) :
  In card cards ->
  tolerated card = false ->
  ApiTest.flatten (PyList cards) = Raise AttributeError \/
  ApiTest.flatten (PyList cards) = Raise TypeError.
Proof.
  intros Hin Hbad.
  unfold ApiTest.flatten. cbn [iter bind].
  apply for_card_not_tolerated.
  destruct (forallb tolerated cards) eqn:Hc; [|reflexivity].
  rewrite forallb_forall in Hc. rewrite (Hc card Hin) in Hbad.
  discriminate Hbad.
Qed.

(** X3. Flattening goes through concatenation: when two lists of cards
    flatten, their concatenation flattens to the concatenation of their
    rows. *)
Theorem flatten_app (cards1 cards2 rows1 rows2 : list pyval) :
  ApiTest.flatten (PyList cards1) = Ok rows1 ->
  ApiTest.flatten (PyList cards2) = Ok rows2 ->
  ApiTest.flatten (PyList (cards1 ++ cards2)) = Ok (rows1 ++ rows2)%list.
Proof.
  intros H1 H2.
  apply flatten_spec in H1 as [Hc1 ->].
  apply flatten_spec in H2 as [Hc2 ->].
  apply flatten_spec. split.
  - rewrite forallb_app, Hc1, Hc2. reflexivity.
  - symmetry. apply flat_rows_app.
Qed.

(** X4. Every row the flattening step returns is an object with the same 21
    keys in the same order, the 11 shared ones then the 10 variant-specific
    ones, whatever the card and the variant hold: a field they lack is
    still a key of the row, and a field outside these 21 is not. *)
Theorem rows_have_row_keys (cards rows : list pyval) :
  ApiTest.flatten (PyList cards) = Ok rows ->
  Forall (fun row => keys row = row_keys) rows.
Proof.
  intros H. apply flatten_spec in H as [_ ->].
  unfold flat_rows. apply Forall_forall. intros row Hin.
  apply in_flat_map in Hin as [card [_ Hin]].
  apply in_map_iff in Hin as [v [<- _]].
  apply flat_row_keys.
Qed.

(** X5. A field that a card or a variant lacks is null in the row: under
    each shared key the row of objects [d] and [dv] holds [None] when [d]
    lacks the field, and under each variant-specific key when [dv] lacks
    it. *)
Theorem row_missing_field_none (d dv : list (string * pyval))
    (f : string * string) :
  (In f shared_fields /\ lookup (snd f) d = None) \/
  (In f variant_fields /\ lookup (snd f) dv = None) ->
  emitted (PyDict d) (PyDict dv) (flat_row (PyDict d) (PyDict dv)) /\
  get (flat_row (PyDict d) (PyDict dv)) (fst f) = Ok PyNone.
Proof.
  intros H. split; [apply emitted_flat_row|].
  destruct H as [[Hf Hnone]|[Hf Hnone]]; simpl in Hf.
  - repeat (destruct Hf as [<-|Hf];
            [simpl in Hnone; unfold flat_row, get, get_default; simpl;
             rewrite Hnone; reflexivity|]).
    contradiction.
  - repeat (destruct Hf as [<-|Hf];
            [simpl in Hnone; unfold flat_row, get, get_default; simpl;
             rewrite Hnone; reflexivity|]).
    contradiction.
Qed.

(** *** The comprehension on arbitrary input *)

Lemma entry_not_dict (s : pyval) :
  is_dict s = false -> ListGames.entry s = Raise AttributeError.
Proof.
  destruct s; intros H; try discriminate H; reflexivity.
Qed.

Lemma comprehension_raise (items : list pyval) :
  forallb is_dict items = false ->
  ListGames.comprehension ListGames.entry items = Raise AttributeError.
Proof.
  induction items as [|s items IH]; intros H; [discriminate H|].
  simpl in H. cbn [ListGames.comprehension].
  destruct (is_dict s) eqn:Hs.
  - destruct (is_dict_inv s Hs) as [d ->].
    rewrite entry_dict. cbn [bind].
    rewrite (IH H). reflexivity.
  - rewrite (entry_not_dict s Hs). reflexivity.
Qed.

(** What the comprehension returns, and when. *)
Lemma simple_list_spec (sets : pyval) (out : list pyval) :
  ListGames.simple_list sets = Ok out <->
  exists items,
    iter sets = Ok items /\
    forallb is_dict items = true /\
    out = map catalog_entry items.
Proof.
  unfold ListGames.simple_list. split.
  - destruct (iter sets) as [items|e]; cbn [bind]; intros H;
      [|discriminate H].
    exists items. destruct (forallb is_dict items) eqn:Hi.
    + rewrite (comprehension_entries items Hi) in H.
      repeat split. congruence.
    + rewrite (comprehension_raise items Hi) in H. discriminate H.
  - intros [items [-> [Hi ->]]]. cbn [bind].
    apply comprehension_entries, Hi.
Qed.

(** X6. The catalog comprehension returns exactly when what it iterates
    over yields objects only, and it returns the entry of each, in order.
    A list of objects qualifies, and so do the empty string and the empty
    object, which have nothing to iterate over. *)
Theorem simple_list_ok_iff (sets : pyval) (out : list pyval) :
  ListGames.simple_list sets = Ok out <->
  exists items,
    iter sets = Ok items /\
    forallb is_dict items = true /\
    out = map catalog_entry items.
Proof.
  unfold ListGames.simple_list. split.
  - destruct (iter sets) as [items|e]; cbn [bind]; intros H;
      [|discriminate H].
    exists items. destruct (forallb is_dict items) eqn:Hi.
    + rewrite (comprehension_entries items Hi) in H.
      repeat split. congruence.
    + rewrite (comprehension_raise items Hi) in H. discriminate H.
  - intros [items [-> [Hi ->]]]. cbn [bind].
    apply comprehension_entries, Hi.
Qed.

(** X7. An entry has the four catalog keys and no other, in order, and the
    mapping is idempotent: the entry of an entry is that entry, so a catalog
    that was written maps to itself. *)
Theorem entry_idempotent (s e : pyval) :
  ListGames.entry s = Ok e ->
  keys e = catalog_fields /\ ListGames.entry e = Ok e.
Proof.
  intros H.
  destruct (is_dict s) eqn:Hs.
  - destruct (is_dict_inv s Hs) as [d ->].
    rewrite entry_dict in H. injection H as <-.
    split; [reflexivity|].
    unfold catalog_entry at 1. cbn [map catalog_fields].
    rewrite entry_dict. reflexivity.
  - rewrite (entry_not_dict s Hs) in H. discriminate H.
Qed.

(** *** Whole runs *)

(** X8. A run of the detail fetcher that ends normally had an accepted
    credential and a response with a success status whose body is an object;
    every card under [data] was one the loop gets through; and the run sent
    one request and then wrote one file that holds one row per variant of
    those cards, in order. *)
Theorem detail_success_sound (env : string -> option string)
    (net : request -> net_outcome) :
  snd (ApiTest.main env net) = Ok tt ->
  exists r d,
    credential_accepted env /\
    net (ApiTest.cards_request env) = Responds r /\
    success_status r /\
    json_body r = Some (PyDict d) /\
    forallb tolerated (cards_of d) = true /\
    fst (ApiTest.main env net) =
      [EvGet (ApiTest.cards_request env);
       EvDump ApiTest.OUTPUT_FILE (PyList (flat_rows (cards_of d)))].
Proof.
  unfold ApiTest.main.
  destruct (negb (truthy (PyStr (ApiTest.API_KEY env))) ||
            startswith (ApiTest.API_KEY env) "YOUR_") eqn:Hkey;
    [discriminate|].
  unfold requests_get.
  destruct (net (ApiTest.cards_request env)) as [r|] eqn:Hnet;
    [|discriminate].
  cbn [then_ lift].
  destruct (raise_for_status r) as [[]|] eqn:Hst; [|discriminate].
  unfold json.
  destruct (json_body r) as [body|] eqn:Hbody; [|discriminate].
  destruct body as [ | | | | | |d]; try discriminate.
  unfold get_default, cards_of.
  destruct (lookup "data" d) as [cards|] eqn:Hdata.
  - destruct cards as [ | | | | |cards| ]; try discriminate.
    cbn [isinstance_list negb then_ lift].
    destruct (ApiTest.flatten (PyList cards)) as [rows|] eqn:Hflat;
      [|discriminate].
    apply flatten_spec in Hflat as [Hc ->].
    pose proof (api_key_check_inv env Hkey) as Hcred.
    pose proof (raise_for_status_inv r Hst) as Hs.
    unfold dump.
    destruct (encodable (PyList (flat_rows cards))); [|discriminate].
    intros _. exists r, d. rewrite Hdata.
    repeat (split; [first [assumption|reflexivity]|]). reflexivity.
  - pose proof (api_key_check_inv env Hkey) as Hcred.
    pose proof (raise_for_status_inv r Hst) as Hs.
    intros _. exists r, d. rewrite Hdata.
    repeat (split; [first [assumption|reflexivity]|]). reflexivity.
Qed.

(** X9. Conversely, with an accepted credential, a success status and an
    object for a body, in which [data] is absent or is a list of cards the
    loop gets through, the run of the detail fetcher sends one request and
    goes on to the write.  When no string of the rows holds a surrogate it
    ends normally with one file holding one row per variant; when one does,
    it ends in a [UnicodeEncodeError] with the file left partly written. *)
Theorem detail_success_complete (env : string -> option string)
    (net : request -> net_outcome) (r : response)
    (d : list (string * pyval)) :
  credential_accepted env ->
  net (ApiTest.cards_request env) = Responds r ->
  success_status r ->
  json_body r = Some (PyDict d) ->
  lookup "data" d = None \/ lookup "data" d = Some (PyList (cards_of d)) ->
  forallb tolerated (cards_of d) = true ->
  (encodable (PyList (flat_rows (cards_of d))) = true ->
   ApiTest.main env net =
     ([EvGet (ApiTest.cards_request env);
       EvDump ApiTest.OUTPUT_FILE (PyList (flat_rows (cards_of d)))],
      Ok tt)) /\
  (encodable (PyList (flat_rows (cards_of d))) = false ->
   ApiTest.main env net =
     ([EvGet (ApiTest.cards_request env);
       EvPartial ApiTest.OUTPUT_FILE (PyList (flat_rows (cards_of d)))],
      Raise UnicodeEncodeError)).
Proof.
  intros Hcred Hnet Hst Hbody Hdata Hcards.
  assert (E : ApiTest.flatten (PyList (cards_of d)) =
              Ok (flat_rows (cards_of d))).
  { apply flatten_spec. split; [exact Hcards|reflexivity]. }
  assert (Hmain : ApiTest.main env net =
                  then_ ([EvGet (ApiTest.cards_request env)], Ok tt)
                    (fun _ => dump ApiTest.OUTPUT_FILE
                                (PyList (flat_rows (cards_of d))))).
  { unfold ApiTest.main.
    rewrite (api_key_check env Hcred).
    unfold requests_get. rewrite Hnet.
    cbn [then_ lift].
    rewrite (raise_for_status_ok r Hst).
    unfold json. rewrite Hbody.
    unfold get_default.
    destruct Hdata as [Hdata|Hdata]; rewrite Hdata.
    - unfold cards_of. rewrite Hdata. reflexivity.
    - cbn [isinstance_list negb then_ lift].
      rewrite E. cbn [then_ lift].
      destruct (dump ApiTest.OUTPUT_FILE (PyList (flat_rows (cards_of d))))
        as [t res].
      reflexivity. }
  rewrite Hmain. unfold dump.
  split; intros Henc; rewrite Henc; reflexivity.
Qed.

(** X10. A run of the catalog fetcher that ends normally had a response
    with a success status whose body is an object; what it iterated over
    ([data], or the empty list when the field is absent) yielded objects
    only; and the run sent one request and then wrote one file that holds
    the entry of each of them, in order. *)
Theorem catalog_success_sound (api_key : string)
    (net : request -> net_outcome) :
  snd (ListGames.script api_key net) = Ok tt ->
  exists r d sets items,
    net (ListGames.sets_request api_key) = Responds r /\
    success_status r /\
    json_body r = Some (PyDict d) /\
    get_default (PyDict d) "data" (PyList []) = Ok sets /\
    iter sets = Ok items /\
    forallb is_dict items = true /\
    fst (ListGames.script api_key net) =
      [EvGet (ListGames.sets_request api_key);
       EvDump ListGames.output_file (PyList (map catalog_entry items))].
Proof.
  unfold ListGames.script.
  destruct (negb (truthy (PyStr api_key)) ||
            contains "YOUR_API_KEY_HERE" api_key); [discriminate|].
  unfold requests_get.
  destruct (net (ListGames.sets_request api_key)) as [r|] eqn:Hnet;
    [|discriminate].
  cbn [then_ lift].
  destruct (raise_for_status r) as [[]|] eqn:Hst; [|discriminate].
  unfold json.
  destruct (json_body r) as [body|] eqn:Hbody; [|discriminate].
  destruct body as [ | | | | | |d]; try discriminate.
  destruct (get_default (PyDict d) "data" (PyList [])) as [sets|] eqn:Hdata;
    [|discriminate].
  destruct (ListGames.simple_list sets) as [out|] eqn:Hout; [|discriminate].
  apply simple_list_spec in Hout as [items [Hit [Hi ->]]].
  pose proof (raise_for_status_inv r Hst) as Hs.
  unfold dump.
  destruct (encodable (PyList (map catalog_entry items))); [|discriminate].
  intros _. exists r, d, sets, items.
  repeat (split; [first [assumption|reflexivity]|]). reflexivity.
Qed.

(** X11. Every run of either script has one of four traces: nothing at
    all, one request, one request followed by a file left partly written,
    or one request followed by one complete file.  The run ends normally
    with the last one only, and with the partly written file it ends in a
    [UnicodeEncodeError]. *)
Theorem one_request_one_file (env : string -> option string)
    (api_key : string) (net : request -> net_outcome) :
  ((exists e, ApiTest.main env net = ([], Raise e)) \/
   (exists e,
       ApiTest.main env net =
         ([EvGet (ApiTest.cards_request env)], Raise e)) \/
   (exists rows,
       ApiTest.main env net =
         ([EvGet (ApiTest.cards_request env);
           EvPartial ApiTest.OUTPUT_FILE (PyList rows)],
          Raise UnicodeEncodeError)) \/
   (exists rows,
       ApiTest.main env net =
         ([EvGet (ApiTest.cards_request env);
           EvDump ApiTest.OUTPUT_FILE (PyList rows)], Ok tt))) /\
  ((exists e, ListGames.script api_key net = ([], Raise e)) \/
   (exists e,
       ListGames.script api_key net =
         ([EvGet (ListGames.sets_request api_key)], Raise e)) \/
   (exists entries,
       ListGames.script api_key net =
         ([EvGet (ListGames.sets_request api_key);
           EvPartial ListGames.output_file (PyList entries)],
          Raise UnicodeEncodeError)) \/
   (exists entries,
       ListGames.script api_key net =
         ([EvGet (ListGames.sets_request api_key);
           EvDump ListGames.output_file (PyList entries)], Ok tt))).
Proof.
  split.
  - unfold ApiTest.main.
    destruct (negb (truthy (PyStr (ApiTest.API_KEY env))) ||
              startswith (ApiTest.API_KEY env) "YOUR_");
      [left; eexists; reflexivity|right].
    unfold requests_get.
    destruct (net (ApiTest.cards_request env)) as [r|];
      [|left; eexists; reflexivity].
    cbn [then_ lift].
    destruct (raise_for_status r); [|left; eexists; reflexivity].
    destruct (json r) as [body|]; [|left; eexists; reflexivity].
    destruct (get_default body "data" (PyList [])) as [cards|];
      [|left; eexists; reflexivity].
    destruct (isinstance_list cards); cbn [negb];
      [|left; eexists; reflexivity].
    cbn [then_ lift].
    destruct (ApiTest.flatten cards) as [rows|];
      [right|left; eexists; reflexivity].
    unfold dump. destruct (encodable (PyList rows));
      [right|left]; exists rows; reflexivity.
  - unfold ListGames.script.
    destruct (negb (truthy (PyStr api_key)) ||
              contains "YOUR_API_KEY_HERE" api_key);
      [left; eexists; reflexivity|right].
    unfold requests_get.
    destruct (net (ListGames.sets_request api_key)) as [r|];
      [|left; eexists; reflexivity].
    cbn [then_ lift].
    destruct (raise_for_status r); [|left; eexists; reflexivity].
    destruct (json r) as [data|]; [|left; eexists; reflexivity].
    destruct (get_default data "data" (PyList [])) as [sets|];
      [|left; eexists; reflexivity].
    destruct (ListGames.simple_list sets) as [out|];
      [right|left; eexists; reflexivity].
    unfold dump. destruct (encodable (PyList out));
      [right|left]; exists out; reflexivity.
Qed.

(** X12. When the transport fails (no connection, timeout), each script
    ends in the exception of [requests.get] with the request as its only
    effect. *)
Theorem transport_failure (env : string -> option string)
    (net : request -> net_outcome) :
  credential_accepted env ->
  (forall req, net req = Fails) ->
  ApiTest.main env net =
    ([EvGet (ApiTest.cards_request env)], Raise RequestException) /\
  ListGames.main net =
    ([EvGet (ListGames.sets_request ListGames.API_KEY)],
     Raise RequestException).
Proof.
  intros Hcred Hnet. split.
  - unfold ApiTest.main. rewrite (api_key_check env Hcred).
    unfold requests_get. rewrite Hnet. reflexivity.
  - unfold ListGames.main, ListGames.script. rewrite literal_key_check.
    unfold requests_get. rewrite Hnet. reflexivity.
Qed.

(** X13. When a response with a success status has a body that is not
    JSON, each script ends in a [JSONDecodeError] after the request and
    writes no file; when the body is JSON but not an object (an array, a
    string, a number, null), each script ends in an [AttributeError]: the
    shape check of the detail fetcher is not reached. *)
Theorem body_not_an_object (env : string -> option string)
    (net : request -> net_outcome) (r : response) :
  credential_accepted env ->
  (forall req, net req = Responds r) ->
  success_status r ->
  (json_body r = None ->
   ApiTest.main env net =
     ([EvGet (ApiTest.cards_request env)], Raise JSONDecodeError) /\
   ListGames.main net =
     ([EvGet (ListGames.sets_request ListGames.API_KEY)],
      Raise JSONDecodeError)) /\
  (forall body,
      json_body r = Some body -> is_dict body = false ->
      ApiTest.main env net =
        ([EvGet (ApiTest.cards_request env)], Raise AttributeError) /\
      ListGames.main net =
        ([EvGet (ListGames.sets_request ListGames.API_KEY)],
         Raise AttributeError)).
Proof.
  intros Hcred Hnet Hst.
  assert (Ha : forall X (k : response -> run X),
             then_ (requests_get net (ApiTest.cards_request env)) k =
             then_ ([EvGet (ApiTest.cards_request env)], Ok r) k).
  { intros X k. unfold requests_get. rewrite Hnet. reflexivity. }
  assert (Hl : forall X (k : response -> run X),
             then_ (requests_get net
                      (ListGames.sets_request ListGames.API_KEY)) k =
             then_ ([EvGet (ListGames.sets_request ListGames.API_KEY)],
                    Ok r) k).
  { intros X k. unfold requests_get. rewrite Hnet. reflexivity. }
  split.
  - intros Hbody. split.
    + unfold ApiTest.main. rewrite (api_key_check env Hcred), Ha.
      cbn [then_ lift]. rewrite (raise_for_status_ok r Hst).
      unfold json. rewrite Hbody. reflexivity.
    + unfold ListGames.main, ListGames.script.
      rewrite literal_key_check, Hl.
      cbn [then_ lift]. rewrite (raise_for_status_ok r Hst).
      unfold json. rewrite Hbody. reflexivity.
  - intros body Hbody Hnd. split.
    + unfold ApiTest.main. rewrite (api_key_check env Hcred), Ha.
      cbn [then_ lift]. rewrite (raise_for_status_ok r Hst).
      unfold json. rewrite Hbody.
      destruct body; try discriminate Hnd; reflexivity.
    + unfold ListGames.main, ListGames.script.
      rewrite literal_key_check, Hl.
      cbn [then_ lift]. rewrite (raise_for_status_ok r Hst).
      unfold json. rewrite Hbody.
      destruct body; try discriminate Hnd; reflexivity.
Qed.

(** ** Properties of the tree printer *)

(** *** Sorting the entries *)

Lemma insert_perm (x : string * node) (l : list (string * node)) :
  Permutation (x :: l) (insert x l).
Proof.
  induction l as [|y l IH]; simpl.
  - apply Permutation_refl.
  - destruct (String.leb (fst x) (fst y)).
    + apply Permutation_refl.
    + apply perm_trans with (y :: x :: l); [apply perm_swap|].
      apply perm_skip, IH.
Qed.

Lemma sorted_perm (l : list (string * node)) : Permutation l (sorted l).
Proof.
  induction l as [|x l IH]; simpl.
  - apply perm_nil.
  - apply perm_trans with (x :: sorted l); [apply perm_skip, IH|].
    apply insert_perm.
Qed.

Lemma sorted_in (l : list (string * node)) (x : string * node) :
  In x (sorted l) -> In x l.
Proof.
  apply Permutation_in, Permutation_sym, sorted_perm.
Qed.

(** *** Enough fuel *)

Lemma depth_entry (readable : bool) (entries : list (string * node))
    (item : string * node) :
  In item entries -> depth (snd item) < depth (Dir readable entries).
Proof.
  intros Hin. cbn [depth]. apply Nat.lt_succ_r.
  induction entries as [|e entries IH]; [contradiction|].
  cbn [fold_right]. destruct Hin as [->|Hin].
  - apply Nat.le_max_l.
  - etransitivity; [apply IH, Hin|apply Nat.le_max_r].
Qed.

Lemma fold_left_ext_in {A B : Type} (f g : A -> B -> A) (l : list B) :
  (forall a x, In x l -> f a x = g a x) ->
  forall a, fold_left f l a = fold_left g l a.
Proof.
  induction l as [|x l IH]; intros H a; [reflexivity|].
  cbn [fold_left]. rewrite (H a x (or_introl eq_refl)).
  apply IH. intros a' y Hy. apply H. right. exact Hy.
Qed.

Lemma fold_left_flat_map {A : Type} (h : A -> list string) (l : list A) :
  forall acc,
    fold_left (fun lines x => (lines ++ h x)%list) l acc =
    (acc ++ flat_map h l)%list.
Proof.
  induction l as [|x l IH]; intros acc; cbn [fold_left flat_map].
  - rewrite app_nil_r. reflexivity.
  - rewrite IH, app_assoc. reflexivity.
Qed.

(** Fuel beyond the depth of the tree changes nothing. *)
Lemma walk_fuel (fuel1 : nat) :
  forall fuel2 readable entries indent,
    depth (Dir readable entries) <= fuel1 ->
    depth (Dir readable entries) <= fuel2 ->
    walk fuel1 readable entries indent = walk fuel2 readable entries indent.
Proof.
  induction fuel1 as [|fuel1 IH]; intros fuel2 readable entries indent H1 H2.
  - cbn [depth] in H1. lia.
  - destruct fuel2 as [|fuel2]; [cbn [depth] in H2; lia|].
    cbn [walk]. destruct readable; [|reflexivity].
    apply fold_left_ext_in. intros lines item Hin.
    apply sorted_in, filter_In in Hin as [Hin _].
    pose proof (depth_entry true entries item Hin) as Hd.
    destruct (snd item) as [|r es]; [reflexivity|].
    rewrite (IH fuel2 r es (S indent)); [reflexivity|lia|lia].
Qed.

(** The recursion of [generate_markdown_tree]: nothing for a directory
    that cannot be read; otherwise, for each kept entry in the order of the
    names, its line and then, for a directory, the lines of that directory
    one level deeper. *)
Lemma generate_markdown_tree_eq (readable : bool)
    (entries : list (string * node)) (indent : nat) :
  generate_markdown_tree readable entries indent =
  if readable then
    flat_map
      (fun item =>
         item_line indent item ::
         match snd item with
         | Dir r es => generate_markdown_tree r es (S indent)
         | File => []
         end)
      (sorted (filter (fun item => kept (fst item)) entries))
  else [].
Proof.
  unfold generate_markdown_tree at 1.
  cbn [depth walk]. destruct readable; [|reflexivity].
  rewrite <- (app_nil_l (flat_map _ _)).
  rewrite <- fold_left_flat_map.
  apply fold_left_ext_in. intros lines item Hin.
  apply sorted_in, filter_In in Hin as [Hin _].
  pose proof (depth_entry true entries item Hin) as Hd.
  cbn [depth] in Hd.
  unfold item_line.
  destruct (snd item) as [|r es] eqn:Hs.
  - reflexivity.
  - unfold generate_markdown_tree.
    rewrite (walk_fuel _ (depth (Dir r es)) r es (S indent));
      [|cbn [depth] in *; lia|lia].
    rewrite <- app_assoc. reflexivity.
Qed.

(** Induction on a tree, directory by directory. *)
Lemma tree_induction (P : bool -> list (string * node) -> Prop) :
  (forall readable entries,
      (forall name r es, In (name, Dir r es) entries -> P r es) ->
      P readable entries) ->
  forall readable entries, P readable entries.
Proof.
  intros Hstep.
  assert (H : forall n readable entries,
             depth (Dir readable entries) <= n -> P readable entries).
  { induction n as [|n IH]; intros readable entries Hd.
    - cbn [depth] in Hd. lia.
    - apply Hstep. intros name r es Hin.
      apply IH.
      pose proof (depth_entry readable entries _ Hin) as Hlt.
      cbn [snd] in Hlt. lia. }
  intros readable entries. apply (H _ readable entries (le_n _)).
Qed.

(** *** Strings *)

Lemma append_nil_r (s : string) : s ++ "" = s.
Proof. induction s as [|c s IH]; simpl; [|rewrite IH]; reflexivity. Qed.

Lemma append_assoc (s1 s2 s3 : string) : (s1 ++ s2) ++ s3 = s1 ++ s2 ++ s3.
Proof. induction s1 as [|c s1 IH]; simpl; [|rewrite IH]; reflexivity. Qed.

Lemma times_add (s : string) (k n : nat) :
  times s (k + n) = times s k ++ times s n.
Proof.
  induction k as [|k IH]; simpl; [reflexivity|].
  rewrite IH, append_assoc. reflexivity.
Qed.

(** *** Counting the lines *)

Lemma shown_entries (entries : list (string * node)) :
  shown (Dir true entries) =
  list_sum (map (fun e => S (shown (snd e)))
              (filter (fun item => kept (fst item)) entries)).
Proof.
  cbn [shown].
  induction entries as [|e entries IH]; [reflexivity|].
  cbn [fold_right filter]. rewrite IH.
  destruct (kept (fst e)); reflexivity.
Qed.

Lemma list_sum_perm (l l' : list nat) :
  Permutation l l' -> list_sum l = list_sum l'.
Proof.
  induction 1; simpl; lia.
Qed.

(** X14. The tree has one line for each entry it shows: the kept entries of
    the directory and, below each kept directory that can be read, those of
    that directory.  What lies in an ignored or hidden directory, or in one
    that cannot be read, adds no line. *)
Theorem tree_line_count (readable : bool) (entries : list (string * node))
    (indent : nat) :
  List.length (generate_markdown_tree readable entries indent) =
  shown (Dir readable entries).
Proof.
  revert indent.
  apply (tree_induction
           (fun readable entries =>
              forall indent,
                List.length (generate_markdown_tree readable entries indent) =
                shown (Dir readable entries))).
  clear readable entries. intros readable entries IH indent.
  rewrite generate_markdown_tree_eq.
  destruct readable; [|reflexivity].
  rewrite shown_entries.
  rewrite (list_sum_perm _ _
             (Permutation_map (fun e => S (shown (snd e)))
                (sorted_perm (filter (fun item => kept (fst item)) entries)))).
  assert (Hin : forall item,
             In item (sorted (filter (fun item => kept (fst item)) entries)) ->
             In item entries).
  { intros item H. apply sorted_in, filter_In in H. apply H. }
  induction (sorted (filter (fun item => kept (fst item)) entries))
    as [|item items IHitems]; [reflexivity|].
  cbn [flat_map map list_sum]. rewrite length_app. cbn [List.length].
  rewrite IHitems; [|intros x Hx; apply Hin; right; exact Hx].
  destruct item as [name child]. cbn [snd].
  destruct child as [|r es]; [reflexivity|].
  rewrite (IH name r es (Hin _ (or_introl eq_refl)) (S indent)).
  reflexivity.
Qed.

(** *** Indentation *)

Lemma item_line_add (k indent : nat) (item : string * node) :
  item_line (k + indent) item = times "  " k ++ item_line indent item.
Proof.
  unfold item_line. rewrite times_add, append_assoc. reflexivity.
Qed.

(** X15. Generating a tree [k] levels deeper is generating it and putting
    [2 * k] spaces before every line. *)
Theorem tree_indent_shift (readable : bool) (entries : list (string * node))
    (k indent : nat) :
  generate_markdown_tree readable entries (k + indent) =
  map (String.append (times "  " k))
    (generate_markdown_tree readable entries indent).
Proof.
  revert indent.
  apply (tree_induction
           (fun readable entries =>
              forall indent,
                generate_markdown_tree readable entries (k + indent) =
                map (String.append (times "  " k))
                  (generate_markdown_tree readable entries indent))).
  clear readable entries. intros readable entries IH indent.
  rewrite !generate_markdown_tree_eq.
  destruct readable; [|reflexivity].
  assert (Hin : forall item,
             In item (sorted (filter (fun item => kept (fst item)) entries)) ->
             In item entries).
  { intros item H. apply sorted_in, filter_In in H. apply H. }
  induction (sorted (filter (fun item => kept (fst item)) entries))
    as [|item items IHitems]; [reflexivity|].
  cbn [flat_map map]. rewrite map_app.
  rewrite IHitems; [|intros x Hx; apply Hin; right; exact Hx].
  rewrite item_line_add.
  destruct item as [name child]. cbn [snd].
  destruct child as [|r es]; [reflexivity|].
  rewrite <- Nat.add_succ_r.
  rewrite (IH name r es (Hin _ (or_introl eq_refl)) (S indent)).
  reflexivity.
Qed.

(** *** The lines and the entries *)

Lemma shown_lines_entries (indent : nat) (entries : list (string * node)) :
  shown_lines indent (Dir true entries) =
  flat_map (fun e => item_line indent e :: shown_lines (S indent) (snd e))
    (filter (fun item => kept (fst item)) entries).
Proof.
  cbn [shown_lines].
  induction entries as [|e entries IH]; [reflexivity|].
  cbn [fold_right filter]. rewrite IH.
  destruct (kept (fst e)); reflexivity.
Qed.

Lemma flat_map_perm_in {A B : Type} (f g : A -> list B) (l : list A) :
  (forall x, In x l -> Permutation (f x) (g x)) ->
  Permutation (flat_map f l) (flat_map g l).
Proof.
  induction l as [|x l IH]; intros H; [apply perm_nil|].
  cbn [flat_map]. apply Permutation_app.
  - apply H. left. reflexivity.
  - apply IH. intros y Hy. apply H. right. exact Hy.
Qed.

(** X16. The lines of the tree are, up to their order, the lines of the
    entries shown: one line for each kept entry of the directory and of
    each kept directory below it that can be read, the line of that entry
    at its own level.  An entry that is ignored or hidden, or that lies
    below a directory that is ignored, hidden or cannot be read, has no
    line. *)
Theorem tree_lines_of_shown (readable : bool)
    (entries : list (string * node)) (indent : nat) :
  Permutation (generate_markdown_tree readable entries indent)
              (shown_lines indent (Dir readable entries)).
Proof.
  revert indent.
  apply (tree_induction
           (fun readable entries =>
              forall indent,
                Permutation (generate_markdown_tree readable entries indent)
                            (shown_lines indent (Dir readable entries)))).
  clear readable entries. intros readable entries IH indent.
  rewrite generate_markdown_tree_eq.
  destruct readable; [|apply perm_nil].
  rewrite shown_lines_entries.
  eapply perm_trans.
  - apply Permutation_flat_map, Permutation_sym, sorted_perm.
  - apply flat_map_perm_in. intros [name child] Hin.
    apply filter_In in Hin as [Hin _].
    cbn [snd]. apply perm_skip.
    destruct child as [|r es]; [apply perm_nil|].
    apply (IH name r es Hin).
Qed.

(** *** Ignored entries *)

Lemma prune_entries (readable : bool) (entries : list (string * node)) :
  entries_of (prune (Dir readable entries)) =
  map (fun e => (fst e, prune (snd e)))
    (filter (fun item => kept (fst item)) entries).
Proof.
  cbn [prune entries_of].
  induction entries as [|e entries IH]; [reflexivity|].
  cbn [fold_right filter]. rewrite IH.
  destruct (kept (fst e)); reflexivity.
Qed.

Lemma filter_kept_map (g : node -> node) (l : list (string * node)) :
  filter (fun item => kept (fst item)) (map (fun e => (fst e, g (snd e))) l) =
  map (fun e => (fst e, g (snd e))) (filter (fun item => kept (fst item)) l).
Proof.
  induction l as [|e l IH]; [reflexivity|].
  cbn [map filter fst]. rewrite IH.
  destruct (kept (fst e)); reflexivity.
Qed.

Lemma filter_idem {A : Type} (p : A -> bool) (l : list A) :
  filter p (filter p l) = filter p l.
Proof.
  induction l as [|x l IH]; [reflexivity|].
  cbn [filter]. destruct (p x) eqn:E; [|exact IH].
  cbn [filter]. rewrite E, IH. reflexivity.
Qed.

Lemma insert_map (g : node -> node) (x : string * node)
    (l : list (string * node)) :
  insert (fst x, g (snd x)) (map (fun e => (fst e, g (snd e))) l) =
  map (fun e => (fst e, g (snd e))) (insert x l).
Proof.
  induction l as [|y l IH]; [reflexivity|].
  cbn [map insert fst].
  destruct (String.leb (fst x) (fst y)); [reflexivity|].
  cbn [map]. rewrite <- IH. reflexivity.
Qed.

Lemma sorted_map (g : node -> node) (l : list (string * node)) :
  sorted (map (fun e => (fst e, g (snd e))) l) =
  map (fun e => (fst e, g (snd e))) (sorted l).
Proof.
  induction l as [|x l IH]; [reflexivity|].
  cbn [map sorted]. rewrite IH. apply insert_map.
Qed.

Lemma flat_map_map {A B C : Type} (g : A -> B) (h : B -> list C)
    (l : list A) :
  flat_map h (map g l) = flat_map (fun x => h (g x)) l.
Proof.
  induction l as [|x l IH]; [reflexivity|].
  cbn [map flat_map]. rewrite IH. reflexivity.
Qed.

Lemma flat_map_ext_in {A B : Type} (f g : A -> list B) (l : list A) :
  (forall x, In x l -> f x = g x) -> flat_map f l = flat_map g l.
Proof.
  induction l as [|x l IH]; intros H; [reflexivity|].
  cbn [flat_map]. rewrite (H x (or_introl eq_refl)).
  rewrite IH; [reflexivity|]. intros y Hy. apply H. right. exact Hy.
Qed.

(** X17. Entries that are not kept do not count, at any level: the tree of
    a directory is the tree of the directory without its ignored and hidden
    entries and without those of its subdirectories. *)
Theorem tree_of_pruned (readable : bool) (entries : list (string * node))
    (indent : nat) :
  generate_markdown_tree readable
    (entries_of (prune (Dir readable entries))) indent =
  generate_markdown_tree readable entries indent.
Proof.
  revert indent.
  apply (tree_induction
           (fun readable entries =>
              forall indent,
                generate_markdown_tree readable
                  (entries_of (prune (Dir readable entries))) indent =
                generate_markdown_tree readable entries indent)).
  clear readable entries. intros readable entries IH indent.
  rewrite !generate_markdown_tree_eq.
  destruct readable; [|reflexivity].
  rewrite prune_entries, filter_kept_map, filter_idem, sorted_map.
  rewrite flat_map_map.
  apply flat_map_ext_in. intros [name child] Hin.
  apply sorted_in, filter_In in Hin as [Hin _].
  unfold item_line. cbn [fst snd].
  destruct child as [|r es]; [reflexivity|].
  cbn [isdir].
  rewrite <- (IH name r es Hin (S indent)).
  reflexivity.
Qed.

(** *** The order of the names *)

Lemma ascii_compare_N (a b : ascii) :
  Ascii.compare a b = N.compare (N_of_ascii a) (N_of_ascii b).
Proof. reflexivity. Qed.

Lemma compare_le_trans (s1 : string) :
  forall s2 s3,
    String.compare s1 s2 <> Gt -> String.compare s2 s3 <> Gt ->
    String.compare s1 s3 <> Gt.
Proof.
  induction s1 as [|c1 s1 IH]; intros [|c2 s2] [|c3 s3]; simpl;
    try congruence.
  rewrite !ascii_compare_N.
  destruct (N.compare_spec (N_of_ascii c1) (N_of_ascii c2)) as [E12|L12|G12];
    destruct (N.compare_spec (N_of_ascii c2) (N_of_ascii c3)) as [E23|L23|G23];
    destruct (N.compare_spec (N_of_ascii c1) (N_of_ascii c3)) as [E13|L13|G13];
    try congruence; try lia.
  apply IH.
Qed.

Lemma leb_trans (s1 s2 s3 : string) :
  String.leb s1 s2 = true -> String.leb s2 s3 = true ->
  String.leb s1 s3 = true.
Proof.
  unfold String.leb. intros H12 H23.
  pose proof (compare_le_trans s1 s2 s3) as H.
  destruct (String.compare s1 s2); destruct (String.compare s2 s3);
    destruct (String.compare s1 s3); try reflexivity; try discriminate;
    exfalso; apply H; congruence.
Qed.

Lemma leb_false (s1 s2 : string) :
  String.leb s1 s2 = false -> String.leb s2 s1 = true.
Proof.
  intros H. destruct (String.leb_total s1 s2) as [E|E]; [congruence|exact E].
Qed.

Lemma leb_strict (s1 s2 : string) :
  s1 <> s2 -> String.leb s1 s2 = true -> String.leb s2 s1 = false.
Proof.
  intros Hne H. destruct (String.leb s2 s1) eqn:E; [|reflexivity].
  exfalso. apply Hne. apply String.leb_antisym; assumption.
Qed.

Lemma insert_insert (x y : string * node) (l : list (string * node)) :
  fst x <> fst y ->
  insert x (insert y l) = insert y (insert x l).
Proof.
  intros Hne.
  induction l as [|z l IH].
  - cbn [insert].
    destruct (String.leb (fst x) (fst y)) eqn:E1.
    + rewrite (leb_strict _ _ Hne E1). reflexivity.
    + rewrite (leb_false _ _ E1). reflexivity.
  - cbn [insert].
    destruct (String.leb (fst y) (fst z)) eqn:Eyz;
      destruct (String.leb (fst x) (fst z)) eqn:Exz; cbn [insert].
    + destruct (String.leb (fst x) (fst y)) eqn:E1.
      * rewrite (leb_strict _ _ Hne E1), Eyz. reflexivity.
      * rewrite (leb_false _ _ E1), Exz. reflexivity.
    + assert (E1 : String.leb (fst x) (fst y) = false).
      { destruct (String.leb (fst x) (fst y)) eqn:E; [|reflexivity].
        rewrite (leb_trans _ _ _ E Eyz) in Exz. discriminate Exz. }
      rewrite E1, Exz, Eyz. reflexivity.
    + assert (E1 : String.leb (fst y) (fst x) = false).
      { destruct (String.leb (fst y) (fst x)) eqn:E; [|reflexivity].
        rewrite (leb_trans _ _ _ E Exz) in Eyz. discriminate Eyz. }
      rewrite E1, Exz, Eyz. reflexivity.
    + rewrite Exz, Eyz, IH. reflexivity.
Qed.

Lemma sorted_unique (l l' : list (string * node)) :
  Permutation l l' ->
  NoDup (map fst l) ->
  sorted l = sorted l'.
Proof.
  induction 1 as [|x l l' Hp IH|x y l|l l' l'' Hp1 IH1 Hp2 IH2];
    intros Hnd.
  - reflexivity.
  - cbn [sorted]. rewrite IH; [reflexivity|].
    cbn [map] in Hnd. apply NoDup_cons_iff in Hnd. apply Hnd.
  - cbn [sorted]. apply insert_insert.
    cbn [map] in Hnd. apply NoDup_cons_iff in Hnd as [Hnotin _].
    intros E. apply Hnotin. left. symmetry. exact E.
  - rewrite IH1; [|exact Hnd]. apply IH2.
    apply (Permutation_NoDup (Permutation_map fst Hp1) Hnd).
Qed.

Lemma filter_perm {A : Type} (p : A -> bool) (l l' : list A) :
  Permutation l l' -> Permutation (filter p l) (filter p l').
Proof.
  induction 1 as [|x l l' Hp IH|x y l|l l' l'' Hp1 IH1 Hp2 IH2].
  - apply perm_nil.
  - cbn [filter]. destruct (p x); [apply perm_skip|]; exact IH.
  - cbn [filter]. destruct (p x); destruct (p y);
      try apply Permutation_refl. apply perm_swap.
  - apply perm_trans with (filter p l'); assumption.
Qed.

Lemma filter_nodup_keys (p : string * node -> bool)
    (l : list (string * node)) :
  NoDup (map fst l) -> NoDup (map fst (filter p l)).
Proof.
  induction l as [|x l IH]; intros Hnd; [constructor|].
  cbn [map] in Hnd. apply NoDup_cons_iff in Hnd as [Hnotin Hnd].
  cbn [filter]. destruct (p x); [|apply IH, Hnd].
  cbn [map]. constructor; [|apply IH, Hnd].
  intros Hin. apply Hnotin.
  apply in_map_iff in Hin as [y [Hy Hin]].
  apply filter_In in Hin as [Hin _].
  apply in_map_iff. exists y. split; assumption.
Qed.

(** X18. The tree does not depend on the order in which [os.listdir] gives
    the names of the directory: two listings of the same entries, each name
    once, give the same lines. *)
Theorem tree_order_independent (readable : bool)
    (entries entries' : list (string * node)) (indent : nat) :
  Permutation entries entries' ->
  NoDup (map fst entries) ->
  generate_markdown_tree readable entries indent =
  generate_markdown_tree readable entries' indent.
Proof.
  intros Hp Hnd.
  rewrite !generate_markdown_tree_eq.
  destruct readable; [|reflexivity].
  rewrite (sorted_unique _ _ (filter_perm _ _ _ Hp)
             (filter_nodup_keys _ _ Hnd)).
  reflexivity.
Qed.

Lemma insert_in (x y : string * node) (l : list (string * node)) :
  In y (insert x l) -> y = x \/ In y l.
Proof.
  intros H. apply (Permutation_in _ (Permutation_sym (insert_perm x l))) in H.
  destruct H as [<-|H]; [left; reflexivity|right; exact H].
Qed.

Lemma insert_sorted (x : string * node) (l : list (string * node)) :
  StronglySorted by_name l -> StronglySorted by_name (insert x l).
Proof.
  induction 1 as [|y l Hs IH Hy]; cbn [insert].
  - constructor; constructor.
  - destruct (String.leb (fst x) (fst y)) eqn:E.
    + constructor; [constructor; assumption|].
      constructor; [exact E|].
      rewrite Forall_forall in *. intros z Hz.
      unfold by_name in *. apply (leb_trans _ _ _ E (Hy z Hz)).
    + constructor; [exact IH|].
      rewrite Forall_forall in *. intros z Hz.
      apply insert_in in Hz as [->|Hz]; [|apply Hy, Hz].
      apply leb_false, E.
Qed.

Lemma sorted_sorted (l : list (string * node)) :
  StronglySorted by_name (sorted l).
Proof.
  induction l as [|x l IH]; cbn [sorted]; [constructor|].
  apply insert_sorted, IH.
Qed.

(** X19. The lines of a readable directory are those of its kept entries
    taken once each in increasing order of name, the line of an entry being
    followed at once by the lines of the directory it names, one level
    deeper. *)
Theorem tree_in_name_order (entries : list (string * node)) (indent : nat) :
  exists items,
    Permutation items (filter (fun item => kept (fst item)) entries) /\
    StronglySorted by_name items /\
    generate_markdown_tree true entries indent =
    flat_map
      (fun item =>
         item_line indent item ::
         match snd item with
         | Dir r es => generate_markdown_tree r es (S indent)
         | File => []
         end)
      items.
Proof.
  exists (sorted (filter (fun item => kept (fst item)) entries)).
  split; [apply Permutation_sym, sorted_perm|].
  split; [apply sorted_sorted|].
  apply (generate_markdown_tree_eq true).
Qed.

(** *** The file written *)

Lemma concat_cons (sep x : string) (xs : list string) :
  String.concat sep (x :: xs) =
  x ++ fold_right (fun line rest => sep ++ line ++ rest) "" xs.
Proof.
  revert x. induction xs as [|y ys IH]; intros x.
  - cbn. rewrite append_nil_r. reflexivity.
  - change (String.concat sep (x :: y :: ys))
      with (x ++ sep ++ String.concat sep (y :: ys)).
    rewrite IH. cbn [fold_right]. reflexivity.
Qed.

(** The text [save_markdown_tree] hands to [f.write]: the title line and
    then each line of the tree after a newline. *)
Lemma save_markdown_tree_text (start_path output_file : string) (readable : bool)
    (entries : list (string * node)) :
  save_markdown_tree start_path readable entries output_file =
  (output_file,
   ("# Directory Structure for `" ++ basename start_path ++ "`" ++ newline) ++
   fold_right (fun line rest => newline ++ line ++ rest) ""
     (generate_markdown_tree readable entries 0)).
Proof.
  unfold save_markdown_tree. cbn [app].
  rewrite concat_cons. reflexivity.
Qed.

(** *** Path names *)

Lemma after_last_slash_none_append (s1 s2 : string) :
  after_last_slash s2 = None ->
  after_last_slash (s1 ++ "/" ++ s2) = Some s2.
Proof.
  intros H. induction s1 as [|c s1 IH].
  - cbn. rewrite H. reflexivity.
  - cbn [append after_last_slash]. cbn [append] in IH. rewrite IH.
    reflexivity.
Qed.

Lemma after_last_slash_spec (p s : string) :
  after_last_slash p = Some s ->
  after_last_slash s = None /\ exists d, p = d ++ "/" ++ s.
Proof.
  revert s. induction p as [|c p IH]; intros s H; [discriminate H|].
  cbn [after_last_slash] in H.
  destruct (after_last_slash p) as [s'|] eqn:E.
  - injection H as <-. destruct (IH s' eq_refl) as [Hn [d ->]].
    split; [exact Hn|]. exists (String c d). reflexivity.
  - destruct (Ascii.eqb_spec c "/") as [->|Hc]; [|discriminate H].
    injection H as <-. split; [exact E|]. exists "". reflexivity.
Qed.

(** [basename] gives the part of a path after its last slash: the result
    holds no slash and the path is some prefix followed by it; of a path
    without a slash it is the whole path, and of a directory joined by a
    slash to a name without a slash it is that name. *)
Lemma basename_spec (p : string) :
  after_last_slash (basename p) = None /\
  (exists d, p = d ++ basename p) /\
  (after_last_slash p = None -> basename p = p) /\
  (forall d name,
      after_last_slash name = None -> p = d ++ "/" ++ name ->
      basename p = name).
Proof.
  unfold basename.
  destruct (after_last_slash p) as [s|] eqn:E.
  - destruct (after_last_slash_spec p s E) as [Hn [d Hd]].
    split; [exact Hn|]. split.
    + exists (d ++ "/"). rewrite Hd, append_assoc. reflexivity.
    + split; [discriminate|].
      intros d' name Hname ->.
      rewrite (after_last_slash_none_append d' name Hname) in E.
      congruence.
  - split; [exact E|]. split; [exists ""; reflexivity|].
    split; [reflexivity|].
    intros d name Hname ->.
    rewrite (after_last_slash_none_append d name Hname) in E.
    discriminate E.
Qed.

(** X21. The title names the last component of the path: for a path that
    ends in a slash and a name without a slash, the text begins with the
    title line of that name.  A path that ends in a slash has the empty
    name, and the title then shows nothing between the quotes. *)
Theorem saved_title (d name output_file : string) (readable : bool)
    (entries : list (string * node)) :
  after_last_slash name = None ->
  save_markdown_tree (d ++ "/" ++ name) readable entries output_file =
  (output_file,
   ("# Directory Structure for `" ++ name ++ "`" ++ newline) ++
   fold_right (fun line rest => newline ++ line ++ rest) ""
     (generate_markdown_tree readable entries 0)).
Proof.
  intros Hname. rewrite save_markdown_tree_text.
  destruct (basename_spec (d ++ "/" ++ name)) as [_ [_ [_ H]]].
  rewrite (H d name Hname eq_refl). reflexivity.
Qed.

(** *** The further properties at sample inputs *)

(** The tree of the sample project. *)
Example project_tree :
  generate_markdown_tree true project 0 =
  ["- README.md"; "- Zed"; "- **src**"; "  - a.py"; "  - b.py";
   "  - **locked**"].
Proof. reflexivity. Qed.

(** A card whose name holds a surrogate goes through the flattening step
    and stops the write: the file is left partly written. *)
Example detail_surrogate_partial :
  ApiTest.flatten (PyList [snivy_surrogate]) =
    Ok (flat_rows [snivy_surrogate]) /\
  ApiTest.main env_unset
    (answers 200 (PyDict [("data", PyList [snivy_surrogate])])) =
    ([EvGet (ApiTest.cards_request env_unset);
      EvPartial ApiTest.OUTPUT_FILE (PyList (flat_rows [snivy_surrogate]))],
     Raise UnicodeEncodeError).
Proof. split; reflexivity. Qed.

Lemma flatten_ok_iff_witness :
  forallb tolerated [snivy; servine] = true /\
  ApiTest.flatten (PyList [snivy; servine]) = Ok (flat_rows [snivy; servine]).
Proof.
  split; [reflexivity|].
  apply (proj2 (flatten_ok_iff [snivy; servine] (flat_rows [snivy; servine]))).
  split; reflexivity.
Defined.

Lemma flatten_one_bad_card_witness :
  In (PyInt 7) [snivy; PyInt 7] /\
  tolerated (PyInt 7) = false /\
  (ApiTest.flatten (PyList [snivy; PyInt 7]) = Raise AttributeError \/
   ApiTest.flatten (PyList [snivy; PyInt 7]) = Raise TypeError).
Proof.
  assert (Hin : In (PyInt 7) [snivy; PyInt 7]).
  { right. left. reflexivity. }
  split; [exact Hin|]. split; [reflexivity|].
  exact (flatten_one_bad_card [snivy; PyInt 7] (PyInt 7) Hin eq_refl).
Defined.

Lemma flatten_app_witness :
  ApiTest.flatten (PyList [snivy]) = Ok (flat_rows [snivy]) /\
  ApiTest.flatten (PyList [servine]) = Ok [] /\
  ApiTest.flatten (PyList ([snivy] ++ [servine])) =
    Ok (flat_rows [snivy] ++ [])%list.
Proof.
  split; [reflexivity|]. split; [reflexivity|].
  exact (flatten_app [snivy] [servine] (flat_rows [snivy]) []
           eq_refl eq_refl).
Defined.

Lemma rows_have_row_keys_witness :
  ApiTest.flatten (PyList [snivy]) = Ok (flat_rows [snivy]) /\
  Forall (fun row => keys row = row_keys) (flat_rows [snivy]).
Proof.
  split; [reflexivity|].
  exact (rows_have_row_keys [snivy] (flat_rows [snivy]) eq_refl).
Defined.

Lemma row_missing_field_none_witness :
  In ("price", "price") variant_fields /\
  lookup "price" [("id", PyStr "v2")] = None /\
  get (flat_row (PyDict [("id", PyStr "c1")]) (PyDict [("id", PyStr "v2")]))
    "price" = Ok PyNone.
Proof.
  assert (Hin : In ("price", "price") variant_fields).
  { simpl. do 5 right. left. reflexivity. }
  split; [exact Hin|]. split; [reflexivity|].
  exact (proj2 (row_missing_field_none
                  [("id", PyStr "c1")] [("id", PyStr "v2")]
                  ("price", "price")
                  (or_intror (conj Hin eq_refl)))).
Defined.

Lemma simple_list_ok_iff_witness :
  iter (PyStr "") = Ok [] /\
  ListGames.simple_list (PyStr "") = Ok [].
Proof.
  split; [reflexivity|].
  apply (proj2 (simple_list_ok_iff (PyStr "") [])).
  exists []. repeat split.
Defined.

Lemma entry_idempotent_witness :
  ListGames.entry set_one = Ok set_one /\
  keys set_one = catalog_fields /\
  ListGames.entry set_one = Ok set_one.
Proof.
  split; [reflexivity|].
  exact (entry_idempotent set_one set_one eq_refl).
Defined.

Lemma detail_success_sound_witness :
  snd (ApiTest.main env_unset
         (answers 200 (PyDict [("data", PyList [snivy])]))) = Ok tt /\
  exists r d,
    credential_accepted env_unset /\
    answers 200 (PyDict [("data", PyList [snivy])])
      (ApiTest.cards_request env_unset) = Responds r /\
    success_status r /\
    json_body r = Some (PyDict d) /\
    forallb tolerated (cards_of d) = true /\
    fst (ApiTest.main env_unset
           (answers 200 (PyDict [("data", PyList [snivy])]))) =
      [EvGet (ApiTest.cards_request env_unset);
       EvDump ApiTest.OUTPUT_FILE (PyList (flat_rows (cards_of d)))].
Proof.
  split; [reflexivity|].
  exact (detail_success_sound env_unset
           (answers 200 (PyDict [("data", PyList [snivy])])) eq_refl).
Defined.

Lemma detail_success_complete_witness :
  credential_accepted env_unset /\
  success_status {| status_code := 200;
                    json_body := Some (PyDict [("data", PyList [snivy])]) |} /\
  forallb tolerated (cards_of [("data", PyList [snivy])]) = true /\
  encodable (PyList (flat_rows (cards_of [("data", PyList [snivy])]))) =
    true /\
  ApiTest.main env_unset (answers 200 (PyDict [("data", PyList [snivy])])) =
    ([EvGet (ApiTest.cards_request env_unset);
      EvDump ApiTest.OUTPUT_FILE
        (PyList (flat_rows (cards_of [("data", PyList [snivy])])))], Ok tt).
Proof.
  assert (Hc : credential_accepted env_unset).
  { split; [intros H; discriminate H|reflexivity]. }
  assert (Hs : success_status
                 {| status_code := 200;
                    json_body :=
                      Some (PyDict [("data", PyList [snivy])]) |}).
  { left. simpl. lia. }
  split; [exact Hc|]. split; [exact Hs|]. split; [reflexivity|].
  split; [reflexivity|].
  exact (proj1 (detail_success_complete env_unset
                  (answers 200 (PyDict [("data", PyList [snivy])]))
                  _ [("data", PyList [snivy])]
                  Hc eq_refl Hs eq_refl (or_intror eq_refl) eq_refl)
           eq_refl).
Defined.

Lemma catalog_success_sound_witness :
  snd (ListGames.script ListGames.API_KEY
         (answers 200 (PyDict [("data", PyList [set_one])]))) = Ok tt /\
  exists r d sets items,
    answers 200 (PyDict [("data", PyList [set_one])])
      (ListGames.sets_request ListGames.API_KEY) = Responds r /\
    success_status r /\
    json_body r = Some (PyDict d) /\
    get_default (PyDict d) "data" (PyList []) = Ok sets /\
    iter sets = Ok items /\
    forallb is_dict items = true /\
    fst (ListGames.script ListGames.API_KEY
           (answers 200 (PyDict [("data", PyList [set_one])]))) =
      [EvGet (ListGames.sets_request ListGames.API_KEY);
       EvDump ListGames.output_file (PyList (map catalog_entry items))].
Proof.
  split; [reflexivity|].
  exact (catalog_success_sound ListGames.API_KEY
           (answers 200 (PyDict [("data", PyList [set_one])])) eq_refl).
Defined.

Lemma transport_failure_witness :
  credential_accepted env_unset /\
  ApiTest.main env_unset (fun _ => Fails) =
    ([EvGet (ApiTest.cards_request env_unset)], Raise RequestException) /\
  ListGames.main (fun _ => Fails) =
    ([EvGet (ListGames.sets_request ListGames.API_KEY)],
     Raise RequestException).
Proof.
  assert (Hc : credential_accepted env_unset).
  { split; [intros H; discriminate H|reflexivity]. }
  split; [exact Hc|].
  exact (transport_failure env_unset (fun _ => Fails) Hc (fun _ => eq_refl)).
Defined.

Lemma body_not_an_object_witness :
  credential_accepted env_unset /\
  success_status {| status_code := 200; json_body := Some (PyList []) |} /\
  is_dict (PyList []) = false /\
  ApiTest.main env_unset (answers 200 (PyList [])) =
    ([EvGet (ApiTest.cards_request env_unset)], Raise AttributeError) /\
  ListGames.main (answers 200 (PyList [])) =
    ([EvGet (ListGames.sets_request ListGames.API_KEY)],
     Raise AttributeError).
Proof.
  assert (Hc : credential_accepted env_unset).
  { split; [intros H; discriminate H|reflexivity]. }
  assert (Hs : success_status
                 {| status_code := 200; json_body := Some (PyList []) |}).
  { left. simpl. lia. }
  split; [exact Hc|]. split; [exact Hs|]. split; [reflexivity|].
  exact (proj2 (body_not_an_object env_unset (answers 200 (PyList [])) _
                  Hc (fun _ => eq_refl) Hs)
           (PyList []) eq_refl eq_refl).
Defined.

Lemma tree_order_independent_witness :
  Permutation [("b.py", File); ("a.py", File)]
              [("a.py", File); ("b.py", File)] /\
  NoDup (map fst [("b.py", File); ("a.py", File)]) /\
  generate_markdown_tree true [("b.py", File); ("a.py", File)] 0 =
  generate_markdown_tree true [("a.py", File); ("b.py", File)] 0.
Proof.
  assert (Hp : Permutation [("b.py", File); ("a.py", File)]
                           [("a.py", File); ("b.py", File)]).
  { apply perm_swap. }
  assert (Hn : NoDup (map fst [("b.py", File); ("a.py", File)])).
  { simpl. constructor.
    - simpl. intros [H|H]; [discriminate H|exact H].
    - constructor; [intros H; exact H|constructor]. }
  split; [exact Hp|]. split; [exact Hn|].
  exact (tree_order_independent true _ _ 0 Hp Hn).
Defined.

Lemma saved_title_witness :
  after_last_slash "proj" = None /\
  save_markdown_tree ("/home/u" ++ "/" ++ "proj") true project
    "/home/u/proj/directory_structure.md" =
  ("/home/u/proj/directory_structure.md",
   ("# Directory Structure for `" ++ "proj" ++ "`" ++ newline) ++
   fold_right (fun line rest => newline ++ line ++ rest) ""
     (generate_markdown_tree true project 0)).
Proof.
  split; [reflexivity|].
  exact (saved_title "/home/u" "proj" "/home/u/proj/directory_structure.md"
           true project eq_refl).
Defined.
